(** * netsapiens_asyncio.messages: the MessageAPI client

    A shallow embedding of [src/netsapiens_asyncio/messages.py].

    The two coroutines [send_message] and [get_messages] are written in a
    small state-and-exception monad.  The state holds the attributes of the
    [MessageAPI] object that the coroutines read and assign, and the trace
    of the calls made to the two collaborators (the authentication client
    and the aiohttp transport).  The collaborators are not part of the
    module: what they answer is given by an environment [Env].

    The coroutines are first written without their logger calls.  The
    module [Logging] writes them again with every logger call in place,
    together with the logger set-up of the constructor, and the two
    versions are proved to agree on everything but the log. *)

From Stdlib Require Import ZArith Ascii DecimalString.
From Stdlib Require DecimalPos DecimalZ.
From stdpp Require Import base option strings gmap list.

Set Warnings "-register-all".

Local Open Scope string_scope.
Local Open Scope Z_scope.

(** ** Python values *)

Module Py.

(** [str(n)] for an [int]. *)
Definition str_int (n : Z) : string := NilZero.string_of_int (Z.to_int n).

(** An [Optional[str]] inside an f-string: [None] prints as [None]. *)
Definition fmt (o : option string) : string := default "None" o.

(** [if x:] for an [Optional[str]]: [None] and the empty string are
    falsy.  The result is the string the guarded branch sees. *)
Definition truthy_str (o : option string) : option string :=
  match o with
  | Some s => if String.eqb s "" then None else Some s
  | None => None
  end.

(** [if n:] for an [Optional[int]]: [None] and [0] are falsy. *)
Definition truthy_int (o : option Z) : option Z :=
  match o with
  | Some n => if n =? 0 then None else Some n
  | None => None
  end.

(** [x or d] for an [Optional[str]]. *)
Definition or_else (o : option string) (d : string) : string :=
  default d (truthy_str o).

(** JSON documents, as [json=] sends them and [response.json()] reads
    them. *)
Inductive Json : Type :=
| JNull
| JBool (b : bool)
| JInt (n : Z)
| JStr (s : string)
| JArr (l : list Json)
| JObj (l : list (string * Json)).

(** The classes of the exceptions that can travel through the module.
    Only three facts about a class are used by the code: whether it is
    [ValueError], whether [except aiohttp.ClientError] catches it, and
    whether [except Exception] catches it. *)
Inductive ExcClass : Type :=
| BaseOnly (name : string)      (* BaseException but not Exception,
                                   such as asyncio.CancelledError *)
| ExceptionCls                  (* Exception itself *)
| ValueErrorCls
| KeyErrorCls
| ClientErrorCls (name : string) (* aiohttp.ClientError or a subclass *)
| OtherCls (name : string).      (* any other subclass of Exception *)

(** An exception object: its class, its message, and [__cause__] as set
    by [raise ... from e]. *)
Inductive Exc : Type :=
| mk_exc (cls : ExcClass) (msg : string) (cause : option Exc).

Definition exc_class (e : Exc) : ExcClass := let 'mk_exc c _ _ := e in c.
Definition exc_msg (e : Exc) : string := let 'mk_exc _ m _ := e in m.
Definition exc_cause (e : Exc) : option Exc := let 'mk_exc _ _ c := e in c.

Definition is_client_error (c : ExcClass) : bool :=
  match c with ClientErrorCls _ => true | _ => false end.

Definition is_exception (c : ExcClass) : bool :=
  match c with BaseOnly _ => false | _ => true end.

End Py.
Export Py.

(** ** The regular expression of [send_message]

    [re.match(r"^[a-zA-Z0-9_]{32,}$", s)].  The pattern is anchored at both
    ends and its body is one character class, so the match is decided by the
    longest prefix of class characters: that prefix must have 32 characters
    or more and must end where [$] matches.  In Python [$] matches at the end
    of the string and also just before a newline that ends the string. *)

Module Re.

Definition in_range (lo hi c : ascii) : bool :=
  (nat_of_ascii lo <=? nat_of_ascii c)%nat
  && (nat_of_ascii c <=? nat_of_ascii hi)%nat.

(** [[a-zA-Z0-9_]] *)
Definition word_char (c : ascii) : bool :=
  in_range "a" "z" c || in_range "A" "Z" c || in_range "0" "9" c
  || Ascii.eqb c "_".

(** The longest prefix of class characters: its length, and what
    follows it. *)
Fixpoint span_word (s : string) : nat * string :=
  match s with
  | EmptyString => (0%nat, EmptyString)
  | String c r =>
      if word_char c
      then let '(k, rest) := span_word r in (S k, rest)
      else (0%nat, s)
  end.

Definition newline : string := String "010" EmptyString.

(** Where [$] matches: at the end, or before a final newline. *)
Definition at_dollar (rest : string) : bool :=
  String.eqb rest "" || String.eqb rest newline.

Definition match_session (s : string) : bool :=
  let '(k, rest) := span_word s in (32 <=? k)%nat && at_dollar rest.

End Re.

(** ** Collaborators and effects *)

(** An HTTP request handed to the aiohttp session. *)
Inductive Request : Type :=
| POST (url : string) (json : gmap string Json) (headers : gmap string string)
| GET (url : string) (headers : gmap string string)
      (params : gmap string string).

(** What the code reads from a response: [response.status], and the
    outcomes of [await response.text()] and [await response.json()]. *)
Record Response : Type := mk_response {
  status : Z;
  text : Exc + string;
  json : Exc + Json;
}.

(** The environment of one call: what [auth_client.check_token_expiry()]
    answers, and what the transport answers to a request.  [inl e] is the
    exception [e] raised by the collaborator.  The token data is a dict of
    strings, read with [.get("api_url")] and [['access_token']]. *)
Record Env : Type := mk_env {
  token_check : Exc + gmap string string;
  transport : Request → Exc + Response;
}.

(** The calls a coroutine makes, in order. *)
Inductive Event : Type :=
| EvCheckTokenExpiry
| EvSessionOpen
| EvRequest (r : Request)
| EvSessionClose.

(** The attributes of a [MessageAPI] object. *)
Record MessageAPI : Type := mk_api {
  auth_data : option (gmap string string);
  base_url : option string;
  domain : string;
  user : string;
}.

Record State : Type := mk_state {
  self : MessageAPI;
  trace : list Event;
}.

(** [MessageAPI.__init__]: [token_data] is the token data cached by the
    authentication client, [None] or a dict; an empty dict is falsy. *)
Definition init (token_data : option (gmap string string)) : MessageAPI :=
  {| auth_data := token_data;
     base_url :=
       match token_data with
       | Some d => if bool_decide (d = ∅) then None else d !! "api_url"
       | None => None
       end;
     domain := "~";
     user := "~" |}.

(** ** The monad *)

Inductive Result (A : Type) : Type :=
| Return (a : A)
| Raise (e : Exc).
Arguments Return {A} a.
Arguments Raise {A} e.

Definition M (A : Type) : Type := State → Result A * State.

#[global] Instance M_ret : MRet M := λ A a st, (Return a, st).

#[global] Instance M_bind : MBind M := λ A B f m st,
  match m st with
  | (Return a, st') => f a st'
  | (Raise e, st') => (Raise e, st')
  end.

Definition raise {A : Type} (e : Exc) : M A := λ st, (Raise e, st).

Definition lift {A : Type} (r : Exc + A) : M A :=
  match r with
  | inl e => raise e
  | inr a => mret a
  end.

Definition emit (ev : Event) : M unit :=
  λ st, (Return (), {| self := self st; trace := trace st ++ [ev] |}).

Definition get_self : M MessageAPI := λ st, (Return (self st), st).

Definition set_self (o : MessageAPI) : M unit :=
  λ st, (Return (), {| self := o; trace := trace st |}).

(** [self.auth_data = d] and [self.base_url = u] *)
Definition set_auth_data (d : gmap string string) : M unit :=
  o ← get_self;
  set_self {| auth_data := Some d; base_url := base_url o;
              domain := domain o; user := user o |}.

Definition set_base_url (u : option string) : M unit :=
  o ← get_self;
  set_self {| auth_data := auth_data o; base_url := u;
              domain := domain o; user := user o |}.

(** [try: body / except ...: handler], where [handler e] is [None] when no
    [except] clause matches [e]. *)
Definition try_except {A : Type} (body : M A) (handler : Exc → option (M A))
  : M A :=
  λ st,
    match body st with
    | (Return a, st') => (Return a, st')
    | (Raise e, st') =>
        match handler e with
        | Some h => h st'
        | None => (Raise e, st')
        end
    end.

(** [async with aiohttp.ClientSession() as session: body]: the session is
    opened, the body runs, and the session is closed both when the body
    returns and when it raises. *)
Definition then_close {A : Type} (body : M A) : M A :=
  λ st,
    let '(r, st') := body st in
    (r, {| self := self st'; trace := trace st' ++ [EvSessionClose] |}).

Definition with_client_session {A : Type} (body : M A) : M A :=
  emit EvSessionOpen;;
  then_close body.

(** ** The collaborators' calls *)

(** [await self.auth_client.check_token_expiry()] *)
Definition check_token_expiry (env : Env) : M (gmap string string) :=
  emit EvCheckTokenExpiry;;
  lift (token_check env).

(** [session.post(url, json=payload, headers=headers)] and
    [session.get(url, headers=headers, params=params)], entered with
    [async with]. *)
Definition session_request (env : Env) (r : Request) : M Response :=
  emit (EvRequest r);;
  lift (transport env r).

(** [await response.json()] and [await response.text()] *)
Definition response_json (r : Response) : M Json := lift (json r).
Definition response_text (r : Response) : M string := lift (text r).

(** [self.auth_data['access_token']]: a missing key raises [KeyError]. *)
Definition auth_data_item (key : string) : M string :=
  o ← get_self;
  match auth_data o ≫= (.!! key) with
  | Some v => mret v
  | None => raise (mk_exc KeyErrorCls key None)
  end.

(** ** send_message *)

(** The [destination] argument, [Union[str, list]]. *)
Inductive Destination : Type :=
| DStr (s : string)
| DList (l : list string).

(** [destination if isinstance(destination, list) else [destination]] *)
Definition destination_list (d : Destination) : list string :=
  match d with
  | DList l => l
  | DStr s => [s]
  end.

Definition invalid_session_msg : string :=
  "Invalid messagesession ID. Must be at least 32 characters long, alphanumeric, and underscores only.".

(** Lines 67 to 77: the session check and the URL. *)
Definition send_url (o : MessageAPI) (messagesession : option string)
  : Exc + string :=
  match truthy_str messagesession with
  | Some sid =>
      if negb (Re.match_session sid)
      then inl (mk_exc ValueErrorCls invalid_session_msg None)
      else inr (fmt (base_url o) +:+ "/ns-api/v2/domains/" +:+ domain o
                +:+ "/users/" +:+ user o +:+ "/messagesessions/" +:+ sid
                +:+ "/messages")
  | None =>
      inr (fmt (base_url o) +:+ "/ns-api/v2/domains/" +:+ domain o
           +:+ "/users/" +:+ user o +:+ "/messages")
  end.

(** Lines 80 to 95: the payload. *)
Definition send_payload (message_type message : string)
    (destination : Destination) (from_number : string)
    (data mime_type : option string) (size : option Z) : gmap string Json :=
  let payload : gmap string Json :=
    <["from-number" := JStr from_number]>
    (<["destination" := JArr (JStr <$> destination_list destination)]>
    (<["message" := JStr message]>
    (<["type" := JStr message_type]> ∅))) in
  let payload :=
    match truthy_str data with
    | Some d => <["data" := JStr d]> payload
    | None => payload
    end in
  let payload :=
    match truthy_str mime_type with
    | Some m => <["mime-type" := JStr m]> payload
    | None => payload
    end in
  match truthy_int size with
  | Some n => <["size" := JStr (str_int n)]> payload
  | None => payload
  end.

(** [{"Authorization": f"Bearer {self.auth_data['access_token']}"}] *)
Definition bearer (access_token : string) : gmap string string :=
  {["Authorization" := "Bearer " +:+ access_token]}.

Definition send_message (env : Env) (message_type message : string)
    (destination : Destination) (from_number : string)
    (messagesession data mime_type : option string) (size : option Z)
  : M Json :=
  tok ← check_token_expiry env;
  set_auth_data tok;;
  set_base_url (tok !! "api_url");;
  o ← get_self;
  url ← lift (send_url o messagesession);
  let payload :=
    send_payload message_type message destination from_number
      data mime_type size in
  with_client_session (
    access_token ← auth_data_item "access_token";
    let headers := bearer access_token in
    response ← session_request env (POST url payload headers);
    if status response =? 200
    then
      result ← response_json response;
      mret result
    else
      error_message ← response_text response;
      raise (mk_exc ExceptionCls
               ("Failed to send message: " +:+ error_message) None)).

(** ** get_messages *)

(** Lines 133 to 141: the URL. *)
Definition get_url (o : MessageAPI) (messagesession : option string)
    (domain : string) (user : option string) : string :=
  match truthy_str messagesession with
  | Some sid =>
      fmt (base_url o) +:+ "/ns-api/v2/domains/" +:+ domain +:+ "/users/"
      +:+ or_else user "~" +:+ "/messagesessions/" +:+ sid +:+ "/messages"
  | None =>
      match truthy_str user with
      | Some u =>
          fmt (base_url o) +:+ "/ns-api/v2/domains/" +:+ domain
          +:+ "/users/" +:+ u +:+ "/messagesessions"
      | None =>
          fmt (base_url o) +:+ "/ns-api/v2/domains/" +:+ domain
          +:+ "/messagesessions"
      end
  end.

(** Lines 144 to 146: the query parameters. *)
Definition get_params (limit : option Z) : gmap string string :=
  match truthy_int limit with
  | Some n => <["limit" := str_int n]> ∅
  | None => ∅
  end.

(** The two [except] clauses of [get_messages], tried in order. *)
Definition get_handlers (e : Exc) : option (M Json) :=
  if is_client_error (exc_class e)
  then Some (raise (mk_exc ExceptionCls
                      "Network error occurred while retrieving messages."
                      (Some e)))
  else if is_exception (exc_class e)
  then Some (raise (mk_exc ExceptionCls "An unexpected error occurred."
                      (Some e)))
  else None.

(** The default of the [domain] keyword.  The keyword is the one argument
    whose default is not [None]: [get_messages] takes it as [None] when the
    caller leaves it out, and as [Some d] when the caller passes [d]. *)
Definition default_domain : string := "~".

Definition get_messages (env : Env) (messagesession : option string)
    (domain : option string) (user : option string) (limit : option Z)
  : M Json :=
  let domain := default default_domain domain in
  tok ← check_token_expiry env;
  set_auth_data tok;;
  set_base_url (tok !! "api_url");;
  o ← get_self;
  let url := get_url o messagesession domain user in
  let params := get_params limit in
  try_except
    (with_client_session (
       access_token ← auth_data_item "access_token";
       let headers := bearer access_token in
       response ← session_request env (GET url headers params);
       if status response =? 200
       then
         result ← response_json response;
         mret result
       else
         error_message ← response_text response;
         raise (mk_exc ExceptionCls
                  ("Failed to retrieve messages. Status: "
                   +:+ str_int (status response) +:+ ", Error: "
                   +:+ error_message) None)))
    get_handlers.

(** ** Running a coroutine *)

(** One call on the object [o], with an empty trace. *)
Definition call {A : Type} (o : MessageAPI) (m : M A) : Result A * State :=
  m {| self := o; trace := [] |}.

(** The object after [check_token_expiry] has answered [tok]. *)
Definition refreshed (o : MessageAPI) (tok : gmap string string)
  : MessageAPI :=
  {| auth_data := Some tok; base_url := tok !! "api_url";
     domain := domain o; user := user o |}.

(** What [send_message] makes of the transport's answer. *)
Definition send_outcome (r : Exc + Response) : Result Json :=
  match r with
  | inl e => Raise e
  | inr resp =>
      if status resp =? 200
      then match json resp with inl e => Raise e | inr j => Return j end
      else match text resp with
           | inl e => Raise e
           | inr t =>
               Raise (mk_exc ExceptionCls ("Failed to send message: " +:+ t)
                        None)
           end
  end.

(** What the body of the [try] of [get_messages] makes of it, and then what
    the [except] clauses make of that. *)
Definition get_body_outcome (r : Exc + Response) : Result Json :=
  match r with
  | inl e => Raise e
  | inr resp =>
      if status resp =? 200
      then match json resp with inl e => Raise e | inr j => Return j end
      else match text resp with
           | inl e => Raise e
           | inr t =>
               Raise (mk_exc ExceptionCls
                        ("Failed to retrieve messages. Status: "
                         +:+ str_int (status resp) +:+ ", Error: " +:+ t)
                        None)
           end
  end.

Definition handled (r : Result Json) : Result Json :=
  match r with
  | Return j => Return j
  | Raise e =>
      if is_client_error (exc_class e)
      then Raise (mk_exc ExceptionCls
                    "Network error occurred while retrieving messages."
                    (Some e))
      else if is_exception (exc_class e)
      then Raise (mk_exc ExceptionCls "An unexpected error occurred."
                    (Some e))
      else Raise e
  end.

(** Every character of [w] is in [[a-zA-Z0-9_]]. *)
Fixpoint all_word (w : string) : bool :=
  match w with
  | EmptyString => true
  | String c r => Re.word_char c && all_word r
  end.

(** ** The specification's reading of the calls *)

(** A call is rejected before any network call: it raises [ValueError],
    the module's invalid-argument error, and its trace is empty. *)
Definition rejected_before_network (out : Result Json * State) : Prop :=
  (∃ msg cause, out.1 = Raise (mk_exc ValueErrorCls msg cause))
  ∧ trace out.2 = [].

(** The path of [get_messages] when an argument counts as given as soon as
    it is not [None]. *)
Definition get_url_as_specified (base : string)
    (session_id : option string) (dom : string) (usr : option string)
  : string :=
  match session_id with
  | Some sid =>
      base +:+ "/ns-api/v2/domains/" +:+ dom +:+ "/users/"
      +:+ or_else usr "~" +:+ "/messagesessions/" +:+ sid +:+ "/messages"
  | None =>
      match usr with
      | Some u =>
          base +:+ "/ns-api/v2/domains/" +:+ dom +:+ "/users/" +:+ u
          +:+ "/messagesessions"
      | None => base +:+ "/ns-api/v2/domains/" +:+ dom +:+ "/messagesessions"
      end
  end.

(** An optional string that the truthiness guards take as missing. *)
Definition absent (o : option string) : Prop := o = None ∨ o = Some "".

(** ** Sample objects and environments *)

Definition tok0 : gmap string string :=
  <["access_token" := "secret"]> (<["api_url" := "https://api.example.com"]> ∅).

Definition o0 : MessageAPI := init None.

Definition doc0 : Json := JObj [("ok", JBool true)].

(** The server answers 200 with a JSON document. *)
Definition env_ok : Env :=
  {| token_check := inr tok0;
     transport := λ _, inr {| status := 200; text := inr "{ok: true}";
                               json := inr doc0 |} |}.

(** The server answers 403 with the body [forbidden]. *)
Definition env_forbidden : Env :=
  {| token_check := inr tok0;
     transport := λ _,
       inr {| status := 403; text := inr "forbidden";
              json := inl (mk_exc (ClientErrorCls "ContentTypeError")
                             "unexpected mimetype" None) |} |}.

(** The connection is reset during the request. *)
Definition reset_exc : Exc :=
  mk_exc (ClientErrorCls "ClientConnectionResetError")
    "Cannot write to closing transport" None.

Definition env_reset : Env :=
  {| token_check := inr tok0; transport := λ _, inl reset_exc |}.

(** Thirty-two times the letter a. *)
Definition sid32 : string := "aaaaaaaaaaaaaaaaaaaaaaaaaaaaaaaa".

(** ** Reading a trace *)

(** The number of HTTP requests and of credential checks in a trace. *)
Definition is_request (ev : Event) : bool :=
  match ev with EvRequest _ => true | _ => false end.

Definition is_check (ev : Event) : bool :=
  match ev with EvCheckTokenExpiry => true | _ => false end.

Fixpoint count (p : Event → bool) (tr : list Event) : nat :=
  match tr with
  | [] => 0%nat
  | ev :: tr' => ((if p ev then 1 else 0) + count p tr')%nat
  end.

(** The scoping of the aiohttp session along a trace: [scoped opened tr]
    holds when, starting with the session open or not as [opened] says,
    requests are sent only while the session is open, the session is never
    opened twice, the credential check happens only outside the session,
    and the session is closed at the end. *)
Fixpoint scoped (opened : bool) (tr : list Event) : bool :=
  match tr with
  | [] => negb opened
  | EvCheckTokenExpiry :: tr' => negb opened && scoped false tr'
  | EvSessionOpen :: tr' => negb opened && scoped true tr'
  | EvRequest _ :: tr' => opened && scoped true tr'
  | EvSessionClose :: tr' => opened && scoped false tr'
  end.

(** The names of the fields a payload of [send_message] can have. *)
Definition payload_fields : list string :=
  ["type"; "message"; "destination"; "from-number"; "data"; "mime-type";
   "size"].

(** A session identifier that is given, when it is given at all, in the
    form the pattern accepts. *)
Definition session_ok (messagesession : option string) : Prop :=
  ∀ s, messagesession = Some s → s ≠ "" → Re.match_session s = true.

(** The form of the identifiers that pass the check of [send_message]. *)
Definition session_form (sid : string) : Prop :=
  ∃ w, all_word w = true ∧ (32 ≤ String.length w)%nat
       ∧ (sid = w ∨ sid = w +:+ Re.newline).

(** Some more environments: the credential check fails; the token data has
    no access token; the token data has no API URL. *)
Definition auth_exc : Exc := mk_exc (OtherCls "AuthError") "token refresh failed" None.

Definition env_auth_fails : Env :=
  {| token_check := inl auth_exc; transport := transport env_ok |}.

Definition tok_no_access : gmap string string :=
  {["api_url" := "https://api.example.com"]}.

Definition env_no_access : Env :=
  {| token_check := inr tok_no_access; transport := transport env_ok |}.

Definition tok_no_url : gmap string string := {["access_token" := "secret"]}.

Definition env_no_url : Env :=
  {| token_check := inr tok_no_url; transport := transport env_ok |}.

(** The request is cancelled while it is awaited. *)
Definition cancelled_exc : Exc := mk_exc (BaseOnly "CancelledError") "" None.

Definition env_cancelled : Env :=
  {| token_check := inr tok0; transport := λ _, inl cancelled_exc |}.

(** ** The coroutines with their logger calls

    The same two coroutines, written again with every call to a method of
    [self.logger] in its place.  A trace now holds the calls to the
    collaborators and the logger calls, in order.  Whether a logger call
    prints anything depends on the level and the handlers of the logger;
    the trace records the call. *)

Module Logging.

Inductive Level : Type := DEBUG | INFO | ERROR.

Inductive LEvent : Type :=
| Did (ev : Event)
| Log (lvl : Level) (msg : string).

(** How Python prints, inside an f-string, the values that the messages
    embed: a payload dict, a dict of query parameters, a JSON document
    and an exception.  Their texts are of no concern to the module. *)
Record Printer : Type := mk_printer {
  repr_payload : gmap string Json → string;
  repr_params : gmap string string → string;
  repr_json : Json → string;
  str_exc : Exc → string;
}.

Record LState : Type := mk_lstate {
  lself : MessageAPI;
  ltrace : list LEvent;
}.

Definition LM (A : Type) : Type := LState → Result A * LState.

#[global] Instance LM_ret : MRet LM := λ A a st, (Return a, st).

#[global] Instance LM_bind : MBind LM := λ A B f m st,
  match m st with
  | (Return a, st') => f a st'
  | (Raise e, st') => (Raise e, st')
  end.

Definition raise {A : Type} (e : Exc) : LM A := λ st, (Raise e, st).

Definition lift {A : Type} (r : Exc + A) : LM A :=
  match r with
  | inl e => raise e
  | inr a => mret a
  end.

Definition emit (ev : LEvent) : LM unit :=
  λ st, (Return (), {| lself := lself st; ltrace := ltrace st ++ [ev] |}).

(** [self.logger.debug(msg)], [.info(msg)] and [.error(msg)] *)
Definition log (lvl : Level) (msg : string) : LM unit := emit (Log lvl msg).

Definition get_self : LM MessageAPI := λ st, (Return (lself st), st).

Definition set_self (o : MessageAPI) : LM unit :=
  λ st, (Return (), {| lself := o; ltrace := ltrace st |}).

Definition set_auth_data (d : gmap string string) : LM unit :=
  o ← get_self;
  set_self {| auth_data := Some d; base_url := base_url o;
              domain := domain o; user := user o |}.

Definition set_base_url (u : option string) : LM unit :=
  o ← get_self;
  set_self {| auth_data := auth_data o; base_url := u;
              domain := domain o; user := user o |}.

Definition try_except {A : Type} (body : LM A)
    (handler : Exc → option (LM A)) : LM A :=
  λ st,
    match body st with
    | (Return a, st') => (Return a, st')
    | (Raise e, st') =>
        match handler e with
        | Some h => h st'
        | None => (Raise e, st')
        end
    end.

Definition then_close {A : Type} (body : LM A) : LM A :=
  λ st,
    let '(r, st') := body st in
    (r, {| lself := lself st';
           ltrace := ltrace st' ++ [Did EvSessionClose] |}).

Definition with_client_session {A : Type} (body : LM A) : LM A :=
  emit (Did EvSessionOpen);;
  then_close body.

Definition check_token_expiry (env : Env) : LM (gmap string string) :=
  emit (Did EvCheckTokenExpiry);;
  lift (token_check env).

Definition session_request (env : Env) (r : Request) : LM Response :=
  emit (Did (EvRequest r));;
  lift (transport env r).

Definition response_json (r : Response) : LM Json := lift (json r).
Definition response_text (r : Response) : LM string := lift (text r).

Definition auth_data_item (key : string) : LM string :=
  o ← get_self;
  match auth_data o ≫= (.!! key) with
  | Some v => mret v
  | None => raise (mk_exc KeyErrorCls key None)
  end.

(** Lines 62 to 110. *)
Definition send_message (P : Printer) (env : Env)
    (message_type message : string) (destination : Destination)
    (from_number : string) (messagesession data mime_type : option string)
    (size : option Z) : LM Json :=
  tok ← check_token_expiry env;
  set_auth_data tok;;
  set_base_url (tok !! "api_url");;
  o ← get_self;
  url ← match truthy_str messagesession with
        | Some sid =>
            if negb (Re.match_session sid)
            then
              log ERROR "Invalid messagesession ID format.";;
              raise (mk_exc ValueErrorCls invalid_session_msg None)
            else
              mret (fmt (base_url o) +:+ "/ns-api/v2/domains/" +:+ domain o
                    +:+ "/users/" +:+ user o +:+ "/messagesessions/"
                    +:+ sid +:+ "/messages")
        | None =>
            mret (fmt (base_url o) +:+ "/ns-api/v2/domains/" +:+ domain o
                  +:+ "/users/" +:+ user o +:+ "/messages")
        end;
  let payload :=
    send_payload message_type message destination from_number
      data mime_type size in
  log DEBUG ("Sending message with payload: " +:+ repr_payload P payload);;
  with_client_session (
    access_token ← auth_data_item "access_token";
    let headers := bearer access_token in
    response ← session_request env (POST url payload headers);
    if status response =? 200
    then
      result ← response_json response;
      log INFO ("Message sent successfully: " +:+ repr_json P result);;
      mret result
    else
      error_message ← response_text response;
      log ERROR ("Failed to send message: " +:+ error_message);;
      raise (mk_exc ExceptionCls
               ("Failed to send message: " +:+ error_message) None)).

(** Lines 168 to 173: the two [except] clauses. *)
Definition get_handlers (P : Printer) (e : Exc) : option (LM Json) :=
  if is_client_error (exc_class e)
  then Some (
    log ERROR ("Network error while retrieving messages: " +:+ str_exc P e);;
    raise (mk_exc ExceptionCls
             "Network error occurred while retrieving messages." (Some e)))
  else if is_exception (exc_class e)
  then Some (
    log ERROR ("Unexpected error while retrieving messages: "
               +:+ str_exc P e);;
    raise (mk_exc ExceptionCls "An unexpected error occurred." (Some e)))
  else None.

(** Lines 128 to 173. *)
Definition get_messages (P : Printer) (env : Env)
    (messagesession : option string) (domain : option string)
    (user : option string) (limit : option Z) : LM Json :=
  let domain := default default_domain domain in
  tok ← check_token_expiry env;
  set_auth_data tok;;
  set_base_url (tok !! "api_url");;
  o ← get_self;
  let url := get_url o messagesession domain user in
  let params := get_params limit in
  log DEBUG ("Retrieving messages from " +:+ url +:+ " with params: "
             +:+ repr_params P params);;
  try_except
    (with_client_session (
       access_token ← auth_data_item "access_token";
       let headers := bearer access_token in
       response ← session_request env (GET url headers params);
       if status response =? 200
       then
         result ← response_json response;
         log INFO ("Messages retrieved successfully from " +:+ url +:+ ".");;
         mret result
       else
         error_message ← response_text response;
         log ERROR ("Failed to retrieve messages from " +:+ url
                    +:+ ". Status: " +:+ str_int (status response)
                    +:+ ", Error: " +:+ error_message);;
         raise (mk_exc ExceptionCls
                  ("Failed to retrieve messages. Status: "
                   +:+ str_int (status response) +:+ ", Error: "
                   +:+ error_message) None)))
    (get_handlers P).

(** One call on the object [o], with an empty trace. *)
Definition call {A : Type} (o : MessageAPI) (m : LM A) : Result A * LState :=
  m {| lself := o; ltrace := [] |}.

(** The calls to the collaborators in a trace, and the levels of its
    logger calls. *)
Fixpoint erase (tr : list LEvent) : list Event :=
  match tr with
  | [] => []
  | Did ev :: tr' => ev :: erase tr'
  | Log _ _ :: tr' => erase tr'
  end.

Fixpoint levels (tr : list LEvent) : list Level :=
  match tr with
  | [] => []
  | Did _ :: tr' => levels tr'
  | Log lvl _ :: tr' => lvl :: levels tr'
  end.

(** *** The logger of the constructor, lines 22 to 35 *)




(** The default of [log_level]: [logging.INFO]. *)
Definition default_log_level : Z := 20.


Definition init_log : list LEvent :=
  [Log DEBUG "MessageAPI initialized with auth client"].

(** The logger calls that follow the answer of the transport: in
    [send_message], in the body of the [try] of [get_messages], and in
    its [except] clauses. *)
Definition send_logs (P : Printer) (r : Exc + Response) : list LEvent :=
  match r with
  | inl _ => []
  | inr resp =>
      if status resp =? 200
      then match json resp with
           | inl _ => []
           | inr j =>
               [Log INFO ("Message sent successfully: " +:+ repr_json P j)]
           end
      else match text resp with
           | inl _ => []
           | inr t => [Log ERROR ("Failed to send message: " +:+ t)]
           end
  end.

Definition get_body_logs (url : string) (r : Exc + Response)
  : list LEvent :=
  match r with
  | inl _ => []
  | inr resp =>
      if status resp =? 200
      then match json resp with
           | inl _ => []
           | inr j =>
               [Log INFO ("Messages retrieved successfully from " +:+ url
                          +:+ ".")]
           end
      else match text resp with
           | inl _ => []
           | inr t =>
               [Log ERROR ("Failed to retrieve messages from " +:+ url
                           +:+ ". Status: " +:+ str_int (status resp)
                           +:+ ", Error: " +:+ t)]
           end
  end.

Definition handler_logs (P : Printer) (r : Result Json) : list LEvent :=
  match r with
  | Return _ => []
  | Raise e =>
      if is_client_error (exc_class e)
      then [Log ERROR ("Network error while retrieving messages: "
                       +:+ str_exc P e)]
      else if is_exception (exc_class e)
      then [Log ERROR ("Unexpected error while retrieving messages: "
                       +:+ str_exc P e)]
      else []
  end.


(** The sample printer. *)
Definition printer0 : Printer :=
  {| repr_payload := λ _, "{...}"; repr_params := λ _, "{}";
     repr_json := λ _, "{...}"; str_exc := exc_msg |}.

End Logging.

(** ** Path lemmas *)

Ltac run_monad :=
  unfold call, mbind, M_bind, mret, M_ret, check_token_expiry,
    session_request, with_client_session, then_close, try_except,
    auth_data_item, set_auth_data, set_base_url, get_self, set_self, emit,
    response_json, response_text, lift, raise;
  cbn [self trace auth_data base_url domain user fst snd app].

(** [send_message], path by path. *)
Lemma send_message_run env o mt msg d f sid data mime size :
  call o (send_message env mt msg d f sid data mime size) =
  match token_check env with
  | inl e => (Raise e, {| self := o; trace := [EvCheckTokenExpiry] |})
  | inr tok =>
      let o' := refreshed o tok in
      match send_url o' sid with
      | inl e => (Raise e, {| self := o'; trace := [EvCheckTokenExpiry] |})
      | inr url =>
          match tok !! "access_token" with
          | None =>
              (Raise (mk_exc KeyErrorCls "access_token" None),
               {| self := o';
                  trace := [EvCheckTokenExpiry; EvSessionOpen;
                            EvSessionClose] |})
          | Some a =>
              let r := POST url (send_payload mt msg d f data mime size)
                         (bearer a) in
              (send_outcome (transport env r),
               {| self := o';
                  trace := [EvCheckTokenExpiry; EvSessionOpen; EvRequest r;
                            EvSessionClose] |})
          end
      end
  end.
Proof.
  unfold send_message. run_monad.
  destruct (token_check env) as [e|tok]; [reflexivity|].
  run_monad. fold (refreshed o tok).
  destruct (send_url (refreshed o tok) sid) as [e|url]; [reflexivity|].
  run_monad. unfold refreshed at 1. cbn [auth_data option_bind].
  destruct (tok !! "access_token") as [a|] eqn:Ha; [|reflexivity].
  run_monad. unfold send_outcome.
  destruct (transport env _) as [e|resp]; [reflexivity|].
  destruct (status resp =? 200).
  - destruct (json resp); reflexivity.
  - destruct (text resp); reflexivity.
Qed.

(** [get_messages], path by path. *)
Lemma get_messages_run env o sid dom usr limit :
  call o (get_messages env sid dom usr limit) =
  match token_check env with
  | inl e => (Raise e, {| self := o; trace := [EvCheckTokenExpiry] |})
  | inr tok =>
      let o' := refreshed o tok in
      match tok !! "access_token" with
      | None =>
          (Raise (mk_exc ExceptionCls "An unexpected error occurred."
                    (Some (mk_exc KeyErrorCls "access_token" None))),
           {| self := o';
              trace := [EvCheckTokenExpiry; EvSessionOpen;
                        EvSessionClose] |})
      | Some a =>
          let r := GET (get_url o' sid (default "~" dom) usr) (bearer a)
                     (get_params limit) in
          (handled (get_body_outcome (transport env r)),
           {| self := o';
              trace := [EvCheckTokenExpiry; EvSessionOpen; EvRequest r;
                        EvSessionClose] |})
      end
  end.
Proof.
  unfold get_messages, default_domain. run_monad.
  destruct (token_check env) as [e|tok]; [reflexivity|].
  run_monad. fold (refreshed o tok).
  unfold refreshed at 1. cbn [auth_data option_bind].
  destruct (tok !! "access_token") as [a|] eqn:Ha; [|reflexivity].
  run_monad. unfold get_body_outcome, handled, get_handlers.
  destruct (transport env _) as [e|resp].
  - destruct (is_client_error (exc_class e)); [reflexivity|].
    destruct (is_exception (exc_class e)); reflexivity.
  - destruct (status resp =? 200).
    + destruct (json resp) as [e|j]; [|reflexivity].
      destruct (is_client_error (exc_class e)); [reflexivity|].
      destruct (is_exception (exc_class e)); reflexivity.
    + destruct (text resp) as [e|t]; [|reflexivity].
      destruct (is_client_error (exc_class e)); [reflexivity|].
      destruct (is_exception (exc_class e)); reflexivity.
Qed.

(** ** The session pattern *)

Lemma span_word_split s k rest :
  Re.span_word s = (k, rest) →
  ∃ w, s = w +:+ rest ∧ all_word w = true ∧ String.length w = k.
Proof.
  revert k rest. induction s as [|c s IH]; intros k rest; simpl.
  - intros [= <- <-]. by exists "".
  - destruct (Re.word_char c) eqn:Hc.
    + destruct (Re.span_word s) as [k' rest'] eqn:Hs.
      intros [= <- <-].
      destruct (IH _ _ eq_refl) as (w & -> & Hw & Hlen).
      exists (String c w). simpl. rewrite Hc, Hw, Hlen. done.
    + intros [= <- <-]. by exists "".
Qed.

Lemma span_word_app w rest :
  all_word w = true →
  Re.span_word rest = (0%nat, rest) →
  Re.span_word (w +:+ rest) = (String.length w, rest).
Proof.
  induction w as [|c w IH]; simpl; intros Hw Hrest; [done|].
  apply andb_true_iff in Hw as [Hc Hw].
  by rewrite Hc, (IH Hw Hrest).
Qed.

Lemma append_empty_r (w : string) : w +:+ "" = w.
Proof.
  induction w as [|c w IH]; [done|].
  change (String c (w +:+ "") = String c w). by f_equal.
Qed.

(** The pattern matches exactly the strings made of 32 or more class
    characters, with or without one final newline. *)
Lemma match_session_iff s :
  Re.match_session s = true ↔
  ∃ w, all_word w = true ∧ (32 ≤ String.length w)%nat
       ∧ (s = w ∨ s = w +:+ Re.newline).
Proof.
  unfold Re.match_session, Re.at_dollar. split.
  - destruct (Re.span_word s) as [k rest] eqn:Hs.
    intros [Hk Hrest]%andb_true_iff.
    apply Nat.leb_le in Hk.
    destruct (span_word_split _ _ _ Hs) as (w & -> & Hw & <-).
    exists w. repeat split; [done..|].
    apply orb_true_iff in Hrest as [->%String.eqb_eq | ->%String.eqb_eq].
    + left. apply append_empty_r.
    + by right.
  - intros (w & Hw & Hlen & [-> | ->]).
    + rewrite <- (append_empty_r w) at 1.
      rewrite span_word_app by done.
      apply andb_true_iff; split; [|reflexivity].
      by apply (proj2 (Nat.leb_le 32 (String.length w))).
    + rewrite span_word_app by done.
      apply andb_true_iff; split; [|reflexivity].
      by apply (proj2 (Nat.leb_le 32 (String.length w))).
Qed.

(** A matching string is not empty, so the truthiness guard lets it
    through. *)
Lemma match_session_truthy sid :
  Re.match_session sid = true → truthy_str (Some sid) = Some sid.
Proof. by destruct sid. Qed.

Lemma truthy_str_nonempty s : s ≠ "" → truthy_str (Some s) = Some s.
Proof. by destruct s. Qed.

Lemma truthy_int_nonzero n : n ≠ 0 → truthy_int (Some n) = Some n.
Proof. intros Hn. simpl. by destruct (Z.eqb_spec n 0). Qed.

(** [str] of an integer is its decimal numeral: reading it back gives the
    integer. *)
Lemma str_int_decimal n :
  Z.of_int <$> NilZero.int_of_string (str_int n) = Some n.
Proof.
  unfold str_int. destruct n as [|p|p].
  - reflexivity.
  - rewrite NilZero.isi.
    + simpl. f_equal. apply (DecimalZ.of_to (Z.pos p)).
    + simpl. intros [= H]. by apply DecimalPos.Unsigned.to_uint_nonnil in H.
    + done.
  - rewrite NilZero.isi.
    + simpl. f_equal. apply (DecimalZ.of_to (Z.neg p)).
    + done.
    + simpl. intros [= H]. by apply DecimalPos.Unsigned.to_uint_nonnil in H.
Qed.

(** ** What a call sends *)

(** The only request of [send_message] is its POST. *)
Lemma send_message_requests env o mt msg d f sid data mime size r :
  EvRequest r ∈ trace (call o (send_message env mt msg d f sid data mime size)).2 →
  ∃ tok url a,
    token_check env = inr tok
    ∧ send_url (refreshed o tok) sid = inr url
    ∧ tok !! "access_token" = Some a
    ∧ r = POST url (send_payload mt msg d f data mime size) (bearer a).
Proof.
  rewrite send_message_run.
  destruct (token_check env) as [e|tok] eqn:Htok; simpl.
  { intros H. repeat (apply elem_of_cons in H as [H|H]; [done|]).
    by apply elem_of_nil in H. }
  destruct (send_url (refreshed o tok) sid) as [e|url] eqn:Hurl; simpl.
  { intros H. repeat (apply elem_of_cons in H as [H|H]; [done|]).
    by apply elem_of_nil in H. }
  destruct (tok !! "access_token") as [a|] eqn:Ha; simpl.
  - intros H.
    apply elem_of_cons in H as [H|H]; [done|].
    apply elem_of_cons in H as [H|H]; [done|].
    apply elem_of_cons in H as [[= ->]|H]; [by exists tok, url, a|].
    apply elem_of_cons in H as [H|H]; [done|].
    by apply elem_of_nil in H.
  - intros H. repeat (apply elem_of_cons in H as [H|H]; [done|]).
    by apply elem_of_nil in H.
Qed.

(** The only request of [get_messages] is its GET. *)
Lemma get_messages_requests env o sid dom usr limit r :
  EvRequest r ∈ trace (call o (get_messages env sid dom usr limit)).2 →
  ∃ tok a,
    token_check env = inr tok
    ∧ tok !! "access_token" = Some a
    ∧ r = GET (get_url (refreshed o tok) sid (default "~" dom) usr)
              (bearer a) (get_params limit).
Proof.
  rewrite get_messages_run.
  destruct (token_check env) as [e|tok] eqn:Htok; simpl.
  { intros H. repeat (apply elem_of_cons in H as [H|H]; [done|]).
    by apply elem_of_nil in H. }
  destruct (tok !! "access_token") as [a|] eqn:Ha; simpl.
  - intros H.
    apply elem_of_cons in H as [H|H]; [done|].
    apply elem_of_cons in H as [H|H]; [done|].
    apply elem_of_cons in H as [[= ->]|H]; [by exists tok, a|].
    apply elem_of_cons in H as [H|H]; [done|].
    by apply elem_of_nil in H.
  - intros H. repeat (apply elem_of_cons in H as [H|H]; [done|]).
    by apply elem_of_nil in H.
Qed.

(** The fields of the payload, one by one. *)
Lemma send_payload_destination mt msg d f data mime size :
  send_payload mt msg d f data mime size !! "destination"
  = Some (JArr (JStr <$> destination_list d)).
Proof.
  unfold send_payload.
  destruct (truthy_str data), (truthy_str mime), (truthy_int size);
    by simplify_map_eq.
Qed.

Lemma send_payload_data mt msg d f data mime size :
  send_payload mt msg d f data mime size !! "data" = JStr <$> truthy_str data.
Proof.
  unfold send_payload.
  destruct (truthy_str data), (truthy_str mime), (truthy_int size);
    by simplify_map_eq.
Qed.

Lemma send_payload_mime_type mt msg d f data mime size :
  send_payload mt msg d f data mime size !! "mime-type"
  = JStr <$> truthy_str mime.
Proof.
  unfold send_payload.
  destruct (truthy_str data), (truthy_str mime), (truthy_int size);
    by simplify_map_eq.
Qed.

Lemma send_payload_size mt msg d f data mime size :
  send_payload mt msg d f data mime size !! "size"
  = JStr ∘ str_int <$> truthy_int size.
Proof.
  unfold send_payload.
  destruct (truthy_str data), (truthy_str mime), (truthy_int size);
    by simplify_map_eq.
Qed.

Lemma get_params_limit limit :
  get_params limit !! "limit" = str_int <$> truthy_int limit.
Proof. unfold get_params. destruct (truthy_int limit); by simplify_map_eq. Qed.

(** A common prefix of two strings cancels. *)
Lemma app_cancel_l (w x y : string) : w +:+ x = w +:+ y → x = y.
Proof.
  induction w as [|c w IH]; [done|].
  change (String c (w +:+ x) = String c (w +:+ y) → x = y).
  intros [= H]. by apply IH.
Qed.

(** ** Session identifiers in send_message *)

(** The pattern in use: 32 class characters match, 31 do not, a dash does
    not, and a final newline after 32 class characters still matches. *)
Example match_session_samples :
  Re.match_session sid32 = true
  ∧ Re.match_session "aaaaaaaaaaaaaaaaaaaaaaaaaaaaaaa" = false
  ∧ Re.match_session "aaaaaaaaaaaaaaaa-aaaaaaaaaaaaaaaa" = false
  ∧ Re.match_session "" = false
  ∧ Re.match_session (sid32 +:+ Re.newline) = true.
Proof. by vm_compute. Qed.

(** C1, as stated, fails.  The empty string does not match the pattern, and
    [send_message] neither raises [ValueError] nor stays off the network
    with it: it sends the POST of a new session and returns the server's
    document.  The identifier [bad-id] does not match either and is
    rejected, but only after [check_token_expiry] has been called. *)
Lemma send_message_invalid_session_counterexample :
  (Re.match_session "" = false
   ∧ ¬ rejected_before_network
         (call o0 (send_message env_ok "sms" "hello" (DStr "15550100")
                     "15550199" (Some "") None None None))
   ∧ call o0 (send_message env_ok "sms" "hello" (DStr "15550100")
                "15550199" (Some "") None None None)
     = (Return doc0,
        {| self := refreshed o0 tok0;
           trace :=
             [EvCheckTokenExpiry; EvSessionOpen;
              EvRequest
                (POST "https://api.example.com/ns-api/v2/domains/~/users/~/messages"
                   (send_payload "sms" "hello" (DStr "15550100") "15550199"
                      None None None)
                   (bearer "secret"));
              EvSessionClose] |}))
  ∧ (Re.match_session "bad-id" = false
     ∧ ¬ rejected_before_network
           (call o0 (send_message env_ok "sms" "hello" (DStr "15550100")
                       "15550199" (Some "bad-id") None None None))
     ∧ trace (call o0 (send_message env_ok "sms" "hello" (DStr "15550100")
                         "15550199" (Some "bad-id") None None None)).2
       = [EvCheckTokenExpiry]).
Proof.
  unfold rejected_before_network. rewrite !send_message_run.
  split; (split; [reflexivity|]); (split; [|reflexivity]).
  - intros [(m & c & H) _]. vm_compute in H. discriminate H.
  - intros [_ H]. vm_compute in H. discriminate H.
Qed.

(** C1, amended.  For every non-empty [session_id] that the pattern does
    not match, [send_message], once [check_token_expiry] has answered,
    raises [ValueError]; the call to [check_token_expiry] is the only call
    it has made, and no HTTP request is issued.  The empty string is taken
    as no [session_id] and is not rejected: the call with it runs as the
    call with [None], it opens the session, and with an access token at
    hand it sends the POST of a new session to [.../messages]. *)
Theorem send_message_rejects_invalid_session
    env o mt msg d f sid data mime size tok :
  token_check env = inr tok →
  sid ≠ "" →
  Re.match_session sid = false →
  call o (send_message env mt msg d f (Some sid) data mime size)
  = (Raise (mk_exc ValueErrorCls invalid_session_msg None),
     {| self := refreshed o tok; trace := [EvCheckTokenExpiry] |})
  ∧ call o (send_message env mt msg d f (Some "") data mime size)
    = call o (send_message env mt msg d f None data mime size)
  ∧ trace (call o (send_message env mt msg d f (Some "") data mime size)).2
    = match tok !! "access_token" with
      | Some a =>
          [EvCheckTokenExpiry; EvSessionOpen;
           EvRequest
             (POST (fmt (tok !! "api_url") +:+ "/ns-api/v2/domains/"
                    +:+ domain o +:+ "/users/" +:+ user o +:+ "/messages")
                (send_payload mt msg d f data mime size) (bearer a));
           EvSessionClose]
      | None => [EvCheckTokenExpiry; EvSessionOpen; EvSessionClose]
      end.
Proof.
  intros Htok Hne Hre. rewrite !send_message_run, Htok. cbn zeta.
  split; [|split].
  - unfold send_url. by rewrite truthy_str_nonempty, Hre.
  - reflexivity.
  - unfold send_url, refreshed. cbn [truthy_str base_url domain user].
    by destruct (tok !! "access_token").
Qed.

Lemma send_message_rejects_invalid_session_witness :
  (token_check env_ok = inr tok0
   ∧ "bad-id" ≠ ""
   ∧ Re.match_session "bad-id" = false)
  ∧ call o0 (send_message env_ok "sms" "hello" (DStr "15550100") "15550199"
               (Some "bad-id") None None None)
    = (Raise (mk_exc ValueErrorCls invalid_session_msg None),
       {| self := refreshed o0 tok0; trace := [EvCheckTokenExpiry] |})
  ∧ trace (call o0 (send_message env_ok "sms" "hello" (DStr "15550100")
                      "15550199" (Some "") None None None)).2
    = [EvCheckTokenExpiry; EvSessionOpen;
       EvRequest
         (POST "https://api.example.com/ns-api/v2/domains/~/users/~/messages"
            (send_payload "sms" "hello" (DStr "15550100") "15550199"
               None None None)
            (bearer "secret"));
       EvSessionClose].
Proof.
  split.
  - split; [reflexivity|]. split; [discriminate | reflexivity].
  - destruct (send_message_rejects_invalid_session env_ok o0 "sms" "hello"
                (DStr "15550100") "15550199" "bad-id" None None None tok0)
      as (Hbad & _ & Hempty);
      [reflexivity | discriminate | reflexivity |].
    split; [exact Hbad | exact Hempty].
Defined.

(** C10.  With [messagesession] the empty string, the guard of line 67
    takes the else branch and the whole call runs exactly as with [None].
    No validation error is raised: the call goes on to open the session,
    and whatever it raises is the exception of a collaborator, the
    [KeyError] of a missing access token, or the failure of a status other
    than 200.  With an access token at hand, its one request is the POST
    to the new-session URL [.../messages]. *)
Theorem send_message_empty_session env o st mt msg d f data mime size :
  send_url o (Some "")
  = inr (fmt (base_url o) +:+ "/ns-api/v2/domains/" +:+ domain o
         +:+ "/users/" +:+ user o +:+ "/messages")
  ∧ send_url o (Some "") = send_url o None
  ∧ send_message env mt msg d f (Some "") data mime size st
    = send_message env mt msg d f None data mime size st
  ∧ trace (call o (send_message env mt msg d f (Some "") data mime size)).2
    = match token_check env with
      | inl _ => [EvCheckTokenExpiry]
      | inr tok =>
          match tok !! "access_token" with
          | Some a =>
              [EvCheckTokenExpiry; EvSessionOpen;
               EvRequest
                 (POST (fmt (tok !! "api_url") +:+ "/ns-api/v2/domains/"
                        +:+ domain o +:+ "/users/" +:+ user o
                        +:+ "/messages")
                    (send_payload mt msg d f data mime size) (bearer a));
               EvSessionClose]
          | None => [EvCheckTokenExpiry; EvSessionOpen; EvSessionClose]
          end
      end
  ∧ ∀ e,
      (call o (send_message env mt msg d f (Some "") data mime size)).1
      = Raise e →
      token_check env = inl e
      ∨ ∃ tok,
          token_check env = inr tok
          ∧ ((tok !! "access_token" = None
              ∧ e = mk_exc KeyErrorCls "access_token" None)
             ∨ ∃ a,
                 tok !! "access_token" = Some a
                 ∧ let r :=
                     POST (fmt (tok !! "api_url") +:+ "/ns-api/v2/domains/"
                           +:+ domain o +:+ "/users/" +:+ user o
                           +:+ "/messages")
                       (send_payload mt msg d f data mime size) (bearer a) in
                   transport env r = inl e
                   ∨ ∃ resp,
                       transport env r = inr resp
                       ∧ (json resp = inl e
                          ∨ text resp = inl e
                          ∨ (status resp ≠ 200
                             ∧ ∃ t, text resp = inr t
                                    ∧ e = mk_exc ExceptionCls
                                            ("Failed to send message: "
                                             +:+ t) None))).
Proof.
  split; [reflexivity|]. split; [reflexivity|]. split; [reflexivity|].
  rewrite send_message_run.
  destruct (token_check env) as [e0|tok] eqn:Htok.
  { split; [reflexivity|]. intros e [= ->]. by left. }
  cbn zeta. unfold send_url, refreshed.
  cbn [truthy_str String.eqb base_url domain user].
  destruct (tok !! "access_token") as [a|] eqn:Ha.
  2:{ split; [reflexivity|]. intros e [= <-]. right. exists tok.
      split; [done|]. by left. }
  split; [reflexivity|]. cbn [fst]. intros e He.
  right. exists tok. split; [done|]. right. exists a. split; [done|].
  cbn zeta. revert He. unfold send_outcome.
  destruct (transport env _) as [c|resp]; [intros [= ->]; by left|].
  intros He. right. exists resp. split; [done|]. revert He.
  destruct (Z.eqb_spec (status resp) 200) as [Hst|Hst].
  - destruct (json resp); [|done]. intros [= ->]. by left.
  - destruct (text resp) as [c|t]; intros [= <-].
    + right. by left.
    + right. right. split; [done|]. by exists t.
Qed.

Lemma send_message_empty_session_witness :
  (call o0 (send_message env_forbidden "sms" "hello" (DStr "15550100")
              "15550199" (Some "") None None None)).1
  = Raise (mk_exc ExceptionCls "Failed to send message: forbidden" None)
  ∧ trace (call o0 (send_message env_forbidden "sms" "hello"
                      (DStr "15550100") "15550199" (Some "")
                      None None None)).2
    = [EvCheckTokenExpiry; EvSessionOpen;
       EvRequest
         (POST "https://api.example.com/ns-api/v2/domains/~/users/~/messages"
            (send_payload "sms" "hello" (DStr "15550100") "15550199"
               None None None)
            (bearer "secret"));
       EvSessionClose]
  ∧ (token_check env_forbidden
     = inl (mk_exc ExceptionCls "Failed to send message: forbidden" None)
     ∨ ∃ tok, token_check env_forbidden = inr tok).
Proof.
  assert (Hrun :
    (call o0 (send_message env_forbidden "sms" "hello" (DStr "15550100")
                "15550199" (Some "") None None None)).1
    = Raise (mk_exc ExceptionCls "Failed to send message: forbidden" None)).
  { by rewrite send_message_run. }
  destruct (send_message_empty_session env_forbidden o0
              {| self := o0; trace := [] |} "sms" "hello"
              (DStr "15550100") "15550199" None None None)
    as (_ & _ & _ & Htrace & Hraise).
  split; [exact Hrun|]. split; [exact Htrace|].
  destruct (Hraise _ Hrun) as [H|(tok & H & _)];
    [by left | right; by exists tok].
Defined.

(** C5.  With a matching [session_id] the POST goes to
    [.../messagesessions/{session_id}/messages]; with none it goes to
    [.../messages]; the two URLs differ.  The call makes exactly this one
    request. *)
Theorem send_message_path env o mt msg d f sid data mime size tok a :
  token_check env = inr tok →
  tok !! "access_token" = Some a →
  Re.match_session sid = true →
  let session_url :=
    fmt (tok !! "api_url") +:+ "/ns-api/v2/domains/" +:+ domain o
    +:+ "/users/" +:+ user o +:+ "/messagesessions/" +:+ sid +:+ "/messages" in
  let default_url :=
    fmt (tok !! "api_url") +:+ "/ns-api/v2/domains/" +:+ domain o
    +:+ "/users/" +:+ user o +:+ "/messages" in
  let body := send_payload mt msg d f data mime size in
  trace (call o (send_message env mt msg d f (Some sid) data mime size)).2
  = [EvCheckTokenExpiry; EvSessionOpen;
     EvRequest (POST session_url body (bearer a)); EvSessionClose]
  ∧ trace (call o (send_message env mt msg d f None data mime size)).2
    = [EvCheckTokenExpiry; EvSessionOpen;
       EvRequest (POST default_url body (bearer a)); EvSessionClose]
  ∧ session_url ≠ default_url.
Proof.
  intros Htok Ha Hre session_url default_url body.
  rewrite !send_message_run, Htok. cbn zeta.
  unfold send_url. rewrite (match_session_truthy _ Hre), Hre. simpl.
  rewrite Ha. simpl.
  repeat split.
  intros H. do 5 apply app_cancel_l in H. cbv in H. discriminate H.
Qed.

Lemma send_message_path_witness :
  (token_check env_ok = inr tok0
   ∧ tok0 !! "access_token" = Some "secret"
   ∧ Re.match_session sid32 = true)
  ∧ trace (call o0 (send_message env_ok "sms" "hello" (DStr "15550100")
                      "15550199" (Some sid32) None None None)).2
    = [EvCheckTokenExpiry; EvSessionOpen;
       EvRequest
         (POST ("https://api.example.com/ns-api/v2/domains/~/users/~/messagesessions/"
                +:+ sid32 +:+ "/messages")
            (send_payload "sms" "hello" (DStr "15550100") "15550199"
               None None None)
            (bearer "secret"));
       EvSessionClose].
Proof.
  split.
  - split; [reflexivity|]. split; [reflexivity | by vm_compute].
  - apply (send_message_path env_ok o0 "sms" "hello" (DStr "15550100")
             "15550199" sid32 None None None tok0 "secret");
      [reflexivity | reflexivity | by vm_compute].
Defined.

(** ** The request body and the query *)

(** C4.  In the body of every POST that [send_message] issues, the
    [destination] field is the one-element array of the string when
    [destination] is a string, and the array of the same strings in the
    same order when it is a list. *)
Theorem send_message_destination
    env o mt msg d f sid data mime size url body hdrs :
  EvRequest (POST url body hdrs)
    ∈ trace (call o (send_message env mt msg d f sid data mime size)).2 →
  (∀ s, d = DStr s → body !! "destination" = Some (JArr [JStr s]))
  ∧ (∀ l, d = DList l → body !! "destination" = Some (JArr (JStr <$> l))).
Proof.
  intros (tok & url' & a & _ & _ & _ & [= -> -> ->])%send_message_requests.
  rewrite send_payload_destination.
  split; by intros ? ->.
Qed.

Lemma send_message_destination_witness :
  EvRequest
    (POST "https://api.example.com/ns-api/v2/domains/~/users/~/messages"
       (send_payload "sms" "hello" (DList ["15550100"; "15550101"])
          "15550199" None None None)
       (bearer "secret"))
    ∈ trace (call o0 (send_message env_ok "sms" "hello"
                        (DList ["15550100"; "15550101"]) "15550199"
                        None None None None)).2
  ∧ send_payload "sms" "hello" (DList ["15550100"; "15550101"])
      "15550199" None None None !! "destination"
    = Some (JArr [JStr "15550100"; JStr "15550101"]).
Proof.
  assert (Hin :
    EvRequest
      (POST "https://api.example.com/ns-api/v2/domains/~/users/~/messages"
         (send_payload "sms" "hello" (DList ["15550100"; "15550101"])
            "15550199" None None None)
         (bearer "secret"))
      ∈ trace (call o0 (send_message env_ok "sms" "hello"
                          (DList ["15550100"; "15550101"]) "15550199"
                          None None None None)).2).
  { rewrite send_message_run. simpl.
    apply list_elem_of_further, list_elem_of_further, list_elem_of_here. }
  split; [exact Hin|].
  exact (proj2 (send_message_destination _ _ _ _ _ _ _ _ _ _ _ _ _ Hin)
           ["15550100"; "15550101"] eq_refl).
Defined.

(** C7, as stated, fails.  A [size] of 0 and a [limit] of 0 are supplied
    but falsy: the body of the POST has no [size] field and the query of
    the GET has no [limit].  The same holds for an empty [data]. *)
Lemma optional_fields_counterexample :
  trace (call o0 (send_message env_ok "mms" "hello" (DStr "15550100")
                    "15550199" None (Some "") (Some "image/png")
                    (Some 0))).2
  = [EvCheckTokenExpiry; EvSessionOpen;
     EvRequest
       (POST "https://api.example.com/ns-api/v2/domains/~/users/~/messages"
          (send_payload "mms" "hello" (DStr "15550100") "15550199"
             (Some "") (Some "image/png") (Some 0))
          (bearer "secret"));
     EvSessionClose]
  ∧ send_payload "mms" "hello" (DStr "15550100") "15550199"
      (Some "") (Some "image/png") (Some 0) !! "size" = None
  ∧ send_payload "mms" "hello" (DStr "15550100") "15550199"
      (Some "") (Some "image/png") (Some 0) !! "data" = None
  ∧ trace (call o0 (get_messages env_ok None None None (Some 0))).2
    = [EvCheckTokenExpiry; EvSessionOpen;
       EvRequest
         (GET "https://api.example.com/ns-api/v2/domains/~/messagesessions"
            (bearer "secret") (get_params (Some 0)));
       EvSessionClose]
  ∧ get_params (Some 0) !! "limit" = None.
Proof.
  rewrite send_message_run, get_messages_run.
  rewrite send_payload_size, send_payload_data, get_params_limit.
  by repeat split.
Qed.

(** C7, amended.  In every POST of [send_message] the fields [data],
    [mime-type] and [size] are missing from the body when the argument is
    [None] and also when it is supplied but falsy (the empty string, the
    integer 0), and present when the argument is supplied and truthy (a
    non-empty string, a non-zero integer), [size] as the decimal string of
    the integer.  In every GET of [get_messages] the same holds of [limit]
    in the query.  The decimal string reads back as the integer. *)
Theorem optional_fields :
  (∀ env o mt msg d f sid data mime size url body hdrs,
     EvRequest (POST url body hdrs)
       ∈ trace (call o (send_message env mt msg d f sid data mime size)).2 →
     (absent data → body !! "data" = None)
     ∧ (∀ s, data = Some s → s ≠ "" → body !! "data" = Some (JStr s))
     ∧ (absent mime → body !! "mime-type" = None)
     ∧ (∀ s, mime = Some s → s ≠ "" → body !! "mime-type" = Some (JStr s))
     ∧ (size = None ∨ size = Some 0 → body !! "size" = None)
     ∧ (∀ n, size = Some n → n ≠ 0 →
          body !! "size" = Some (JStr (str_int n))))
  ∧ (∀ env o sid dom usr limit url hdrs params,
       EvRequest (GET url hdrs params)
         ∈ trace (call o (get_messages env sid dom usr limit)).2 →
       (limit = None ∨ limit = Some 0 → params !! "limit" = None)
       ∧ (∀ n, limit = Some n → n ≠ 0 →
            params !! "limit" = Some (str_int n)))
  ∧ (∀ n, Z.of_int <$> NilZero.int_of_string (str_int n) = Some n).
Proof.
  split; [|split].
  - intros env o mt msg d f sid data mime size url body hdrs.
    intros (tok & url' & a & _ & _ & _ & [= -> -> ->])%send_message_requests.
    rewrite send_payload_data, send_payload_mime_type, send_payload_size.
    repeat split.
    + by intros [-> | ->].
    + intros s -> Hs. by rewrite truthy_str_nonempty.
    + by intros [-> | ->].
    + intros s -> Hs. by rewrite truthy_str_nonempty.
    + by intros [-> | ->].
    + intros n -> Hn. by rewrite truthy_int_nonzero.
  - intros env o sid dom usr limit url hdrs params.
    intros (tok & a & _ & _ & [= -> -> ->])%get_messages_requests.
    rewrite get_params_limit. split.
    + by intros [-> | ->].
    + intros n -> Hn. by rewrite truthy_int_nonzero.
  - apply str_int_decimal.
Qed.

Lemma optional_fields_witness :
  (EvRequest
     (POST "https://api.example.com/ns-api/v2/domains/~/users/~/messages"
        (send_payload "mms" "hello" (DStr "15550100") "15550199"
           (Some "aGVsbG8=") (Some "image/png") (Some 5))
        (bearer "secret"))
     ∈ trace (call o0 (send_message env_ok "mms" "hello" (DStr "15550100")
                         "15550199" None (Some "aGVsbG8=")
                         (Some "image/png") (Some 5))).2
   ∧ send_payload "mms" "hello" (DStr "15550100") "15550199"
       (Some "aGVsbG8=") (Some "image/png") (Some 5) !! "size"
     = Some (JStr "5"))
  ∧ (EvRequest
       (GET "https://api.example.com/ns-api/v2/domains/~/messagesessions"
          (bearer "secret") (get_params (Some 25)))
       ∈ trace (call o0 (get_messages env_ok None None None (Some 25))).2
     ∧ get_params (Some 25) !! "limit" = Some "25").
Proof.
  assert (Hpost :
    EvRequest
      (POST "https://api.example.com/ns-api/v2/domains/~/users/~/messages"
         (send_payload "mms" "hello" (DStr "15550100") "15550199"
            (Some "aGVsbG8=") (Some "image/png") (Some 5))
         (bearer "secret"))
      ∈ trace (call o0 (send_message env_ok "mms" "hello" (DStr "15550100")
                          "15550199" None (Some "aGVsbG8=")
                          (Some "image/png") (Some 5))).2).
  { rewrite send_message_run. simpl.
    apply list_elem_of_further, list_elem_of_further, list_elem_of_here. }
  assert (Hget :
    EvRequest
      (GET "https://api.example.com/ns-api/v2/domains/~/messagesessions"
         (bearer "secret") (get_params (Some 25)))
      ∈ trace (call o0 (get_messages env_ok None None None (Some 25))).2).
  { rewrite get_messages_run. simpl.
    apply list_elem_of_further, list_elem_of_further, list_elem_of_here. }
  split; (split; [assumption|]).
  - refine (proj2 (proj2 (proj2 (proj2 (proj2
      (proj1 optional_fields _ _ _ _ _ _ _ _ _ _ _ _ _ Hpost))))) 5 eq_refl _).
    discriminate.
  - refine (proj2 (proj1 (proj2 optional_fields) _ _ _ _ _ _ _ _ _ Hget)
              25 eq_refl _).
    discriminate.
Defined.

(** ** The path of get_messages *)

(** C6, as stated, fails.  With [session_id] the empty string and the
    user [bob], the first branch of the specification gives a path through
    [messagesessions//messages]; the code takes the empty string as no
    session and lists the sessions of [bob]. *)
Lemma get_messages_path_counterexample :
  trace (call o0 (get_messages env_ok (Some "") None (Some "bob") None)).2
  = [EvCheckTokenExpiry; EvSessionOpen;
     EvRequest
       (GET "https://api.example.com/ns-api/v2/domains/~/users/bob/messagesessions"
          (bearer "secret") ∅);
     EvSessionClose]
  ∧ get_url_as_specified "https://api.example.com" (Some "") "~" (Some "bob")
    = "https://api.example.com/ns-api/v2/domains/~/users/bob/messagesessions//messages"
  ∧ get_url_as_specified "https://api.example.com" (Some "") "~" (Some "bob")
    ≠ "https://api.example.com/ns-api/v2/domains/~/users/bob/messagesessions".
Proof.
  rewrite get_messages_run. by repeat split.
Qed.

(** C6, amended.  [get_messages] issues one GET, and its URL is chosen by
    the first branch that applies: a non-empty [session_id] gives
    [.../domains/{domain}/users/{user or "~"}/messagesessions/{session_id}/messages];
    a missing or empty [session_id] with a non-empty [user] gives
    [.../domains/{domain}/users/{user}/messagesessions]; a missing or empty
    [session_id] with a missing or empty [user] gives
    [.../domains/{domain}/messagesessions].  The domain is [~] when the
    caller leaves it out. *)
Theorem get_messages_path env o sid dom usr limit tok a :
  token_check env = inr tok →
  tok !! "access_token" = Some a →
  ∃ url,
    trace (call o (get_messages env sid dom usr limit)).2
    = [EvCheckTokenExpiry; EvSessionOpen;
       EvRequest (GET url (bearer a) (get_params limit)); EvSessionClose]
    ∧ (∀ s, sid = Some s → s ≠ "" →
         url = fmt (tok !! "api_url") +:+ "/ns-api/v2/domains/"
               +:+ default "~" dom +:+ "/users/" +:+ or_else usr "~"
               +:+ "/messagesessions/" +:+ s +:+ "/messages")
    ∧ (∀ u, absent sid → usr = Some u → u ≠ "" →
         url = fmt (tok !! "api_url") +:+ "/ns-api/v2/domains/"
               +:+ default "~" dom +:+ "/users/" +:+ u
               +:+ "/messagesessions")
    ∧ (absent sid → absent usr →
         url = fmt (tok !! "api_url") +:+ "/ns-api/v2/domains/"
               +:+ default "~" dom +:+ "/messagesessions").
Proof.
  intros Htok Ha. rewrite get_messages_run, Htok. cbn zeta. rewrite Ha.
  eexists. split; [reflexivity|].
  unfold get_url, refreshed, absent. cbn [base_url].
  split; [|split].
  - intros s -> Hs. by rewrite truthy_str_nonempty.
  - intros u Hsid -> Hu. rewrite (truthy_str_nonempty u Hu).
    by destruct Hsid as [-> | ->].
  - by intros [-> | ->] [-> | ->].
Qed.

Lemma get_messages_path_witness :
  (token_check env_ok = inr tok0 ∧ tok0 !! "access_token" = Some "secret")
  ∧ ∃ url,
      trace (call o0 (get_messages env_ok
                        (Some "xxxxxxxxxxxxxxxxxxxxxxxxxxxxxxxxxxxxxxxx")
                        (Some "acme") (Some "bob") None)).2
      = [EvCheckTokenExpiry; EvSessionOpen;
         EvRequest (GET url (bearer "secret") (get_params None));
         EvSessionClose]
      ∧ url = "https://api.example.com/ns-api/v2/domains/acme/users/bob/messagesessions/xxxxxxxxxxxxxxxxxxxxxxxxxxxxxxxxxxxxxxxx/messages".
Proof.
  split; [by split|].
  destruct (get_messages_path env_ok o0
              (Some "xxxxxxxxxxxxxxxxxxxxxxxxxxxxxxxxxxxxxxxx")
              (Some "acme") (Some "bob") None tok0 "secret"
              eq_refl eq_refl) as (url & Htrace & Hsession & _).
  exists url. split; [exact Htrace|].
  apply (Hsession "xxxxxxxxxxxxxxxxxxxxxxxxxxxxxxxxxxxxxxxx" eq_refl).
  discriminate.
Defined.

(** The three calls of the specification's examples. *)
Example get_messages_sample_paths :
  get_url (refreshed o0 tok0) None (default "~" None) None
  = "https://api.example.com/ns-api/v2/domains/~/messagesessions"
  ∧ get_url (refreshed o0 tok0) None (default "~" None) (Some "bob")
    = "https://api.example.com/ns-api/v2/domains/~/users/bob/messagesessions"
  ∧ get_url (refreshed o0 tok0)
      (Some "xxxxxxxxxxxxxxxxxxxxxxxxxxxxxxxxxxxxxxxx")
      (default "~" (Some "acme")) (Some "bob")
    = "https://api.example.com/ns-api/v2/domains/acme/users/bob/messagesessions/xxxxxxxxxxxxxxxxxxxxxxxxxxxxxxxxxxxxxxxx/messages".
Proof. by vm_compute. Qed.

(** C8.  [get_messages] checks no session identifier.  The identifier
    [bad-id] does not match the pattern; the call is not rejected, it
    issues the GET with the identifier in the path and returns the
    server's document. *)
Theorem get_messages_unvalidated_session :
  Re.match_session "bad-id" = false
  ∧ call o0 (get_messages env_ok (Some "bad-id") None None None)
    = (Return doc0,
       {| self := refreshed o0 tok0;
          trace :=
            [EvCheckTokenExpiry; EvSessionOpen;
             EvRequest
               (GET "https://api.example.com/ns-api/v2/domains/~/users/~/messagesessions/bad-id/messages"
                  (bearer "secret") ∅);
             EvSessionClose] |}).
Proof. rewrite get_messages_run. by split. Qed.

(** ** Failures *)

(** [send_message] on a status other than 200: the exception is made of
    the body text alone, whatever the status is. *)
Lemma send_message_status_error
    env o mt msg d f sid data mime size tok a url resp body_text :
  token_check env = inr tok →
  tok !! "access_token" = Some a →
  send_url (refreshed o tok) sid = inr url →
  transport env (POST url (send_payload mt msg d f data mime size) (bearer a))
  = inr resp →
  status resp ≠ 200 →
  text resp = inr body_text →
  (call o (send_message env mt msg d f sid data mime size)).1
  = Raise (mk_exc ExceptionCls ("Failed to send message: " +:+ body_text)
             None).
Proof.
  intros Htok Ha Hurl Hresp Hst Htext.
  rewrite send_message_run, Htok. cbn zeta. rewrite Hurl, Ha. cbn zeta.
  rewrite Hresp. unfold send_outcome. cbn [fst].
  destruct (Z.eqb_spec (status resp) 200) as [?|_]; [done|].
  by rewrite Htext.
Qed.

(** [send_message] has no [try]: what the transport raises reaches the
    caller as it is. *)
Lemma send_message_transport_error
    env o mt msg d f sid data mime size tok a url e :
  token_check env = inr tok →
  tok !! "access_token" = Some a →
  send_url (refreshed o tok) sid = inr url →
  transport env (POST url (send_payload mt msg d f data mime size) (bearer a))
  = inl e →
  (call o (send_message env mt msg d f sid data mime size)).1 = Raise e.
Proof.
  intros Htok Ha Hurl Hresp.
  rewrite send_message_run, Htok. cbn zeta. rewrite Hurl, Ha. cbn zeta.
  by rewrite Hresp.
Qed.

(** [get_messages] wraps what the transport raises: an
    [aiohttp.ClientError] becomes the network error, any other
    [Exception] the unexpected error, each with the original as cause. *)
Lemma get_messages_transport_error env o sid dom usr limit tok a e :
  token_check env = inr tok →
  tok !! "access_token" = Some a →
  transport env (GET (get_url (refreshed o tok) sid (default "~" dom) usr)
                   (bearer a) (get_params limit))
  = inl e →
  is_exception (exc_class e) = true →
  (call o (get_messages env sid dom usr limit)).1
  = Raise (mk_exc ExceptionCls
             (if is_client_error (exc_class e)
              then "Network error occurred while retrieving messages."
              else "An unexpected error occurred.")
             (Some e)).
Proof.
  intros Htok Ha Hresp Hexc.
  rewrite get_messages_run, Htok. cbn zeta. rewrite Ha. cbn zeta.
  rewrite Hresp. cbn [fst get_body_outcome handled]. rewrite Hexc.
  by destruct (is_client_error (exc_class e)).
Qed.

(** C9.  In [get_messages], on a status other than 200, the exception
    that carries the status and the body text is raised inside the [try],
    caught by [except Exception], and replaced.  The caller gets a new
    [Exception] with the fixed message, and the exception with the status
    and the body only as its cause. *)
Theorem get_messages_status_error_rewrapped
    env o sid dom usr limit tok a resp body_text :
  token_check env = inr tok →
  tok !! "access_token" = Some a →
  transport env (GET (get_url (refreshed o tok) sid (default "~" dom) usr)
                   (bearer a) (get_params limit))
  = inr resp →
  status resp ≠ 200 →
  text resp = inr body_text →
  (call o (get_messages env sid dom usr limit)).1
  = Raise (mk_exc ExceptionCls "An unexpected error occurred."
             (Some (mk_exc ExceptionCls
                      ("Failed to retrieve messages. Status: "
                       +:+ str_int (status resp) +:+ ", Error: "
                       +:+ body_text)
                      None))).
Proof.
  intros Htok Ha Hresp Hst Htext.
  rewrite get_messages_run, Htok. cbn zeta. rewrite Ha. cbn zeta.
  rewrite Hresp. unfold get_body_outcome. cbn [fst].
  destruct (Z.eqb_spec (status resp) 200) as [?|_]; [done|].
  by rewrite Htext.
Qed.

Lemma get_messages_status_error_rewrapped_witness :
  (token_check env_forbidden = inr tok0
   ∧ tok0 !! "access_token" = Some "secret"
   ∧ (403 : Z) ≠ 200)
  ∧ (call o0 (get_messages env_forbidden None None (Some "bob") None)).1
    = Raise (mk_exc ExceptionCls "An unexpected error occurred."
               (Some (mk_exc ExceptionCls
                        "Failed to retrieve messages. Status: 403, Error: forbidden"
                        None))).
Proof.
  split.
  - split; [reflexivity|]. split; [reflexivity | discriminate].
  - apply (get_messages_status_error_rewrapped env_forbidden o0 None None
             (Some "bob") None tok0 "secret"
             {| status := 403; text := inr "forbidden";
                json := inl (mk_exc (ClientErrorCls "ContentTypeError")
                               "unexpected mimetype" None) |}
             "forbidden");
      [reflexivity | reflexivity | reflexivity | discriminate | reflexivity].
Defined.

(** C2.  HTTP 403 with the body [forbidden].  [send_message] raises an
    exception made of the body text, with no status in it: a 500 with the
    same body raises the very same exception.  [get_messages] raises the
    unexpected error, and the exception with the status and the body is
    its cause. *)
Theorem http_403_outcomes :
  (call o0 (send_message env_forbidden "sms" "hello" (DStr "15550100")
              "15550199" None None None None)).1
  = Raise (mk_exc ExceptionCls "Failed to send message: forbidden" None)
  ∧ (call o0 (send_message
                {| token_check := inr tok0;
                   transport := λ _,
                     inr {| status := 500; text := inr "forbidden";
                            json := inr JNull |} |}
                "sms" "hello" (DStr "15550100") "15550199"
                None None None None)).1
    = Raise (mk_exc ExceptionCls "Failed to send message: forbidden" None)
  ∧ (call o0 (get_messages env_forbidden None None None None)).1
    = Raise (mk_exc ExceptionCls "An unexpected error occurred."
               (Some (mk_exc ExceptionCls
                        "Failed to retrieve messages. Status: 403, Error: forbidden"
                        None))).
Proof. rewrite !send_message_run, get_messages_run. by repeat split. Qed.

(** C3.  The connection is reset during the request.  [send_message]
    raises the transport's exception itself, not wrapped; [get_messages]
    raises the network error with the transport's exception as cause. *)
Theorem connection_reset_outcomes :
  (call o0 (send_message env_reset "sms" "hello" (DStr "15550100")
              "15550199" None None None None)).1
  = Raise reset_exc
  ∧ (call o0 (get_messages env_reset None None None None)).1
    = Raise (mk_exc ExceptionCls
               "Network error occurred while retrieving messages."
               (Some reset_exc)).
Proof. rewrite send_message_run, get_messages_run. by split. Qed.

(** ** The discipline of a call *)

(** X1.  Whatever the collaborators answer and whatever the arguments
    are, a call of either coroutine starts with the credential check and
    makes it once, sends at most one HTTP request, sends it only inside
    the aiohttp session, and leaves the session closed, also when it
    raises. *)
Theorem call_discipline env o :
  (∀ mt msg d f sid data mime size,
     let tr :=
       trace (call o (send_message env mt msg d f sid data mime size)).2 in
     head tr = Some EvCheckTokenExpiry
     ∧ count is_check tr = 1%nat
     ∧ (count is_request tr ≤ 1)%nat
     ∧ scoped false tr = true)
  ∧ (∀ sid dom usr limit,
       let tr := trace (call o (get_messages env sid dom usr limit)).2 in
       head tr = Some EvCheckTokenExpiry
       ∧ count is_check tr = 1%nat
       ∧ (count is_request tr ≤ 1)%nat
       ∧ scoped false tr = true).
Proof.
  split.
  - intros mt msg d f sid data mime size. rewrite send_message_run.
    destruct (token_check env) as [e|tok]; [simpl; repeat split; lia|].
    cbn zeta.
    destruct (send_url _ sid) as [e|url]; [simpl; repeat split; lia|].
    destruct (tok !! "access_token"); simpl; repeat split; lia.
  - intros sid dom usr limit. rewrite get_messages_run.
    destruct (token_check env) as [e|tok]; [simpl; repeat split; lia|].
    cbn zeta.
    destruct (tok !! "access_token"); simpl; repeat split; lia.
Qed.

(** X2.  When [check_token_expiry] raises, both coroutines raise that
    very exception ([get_messages] too: the call stands before its [try]),
    the object keeps its attributes, and no session is opened and no
    request sent. *)
Theorem credential_failure
    env o e mt msg d f sid data mime size sid' dom usr limit :
  token_check env = inl e →
  call o (send_message env mt msg d f sid data mime size)
  = (Raise e, {| self := o; trace := [EvCheckTokenExpiry] |})
  ∧ call o (get_messages env sid' dom usr limit)
    = (Raise e, {| self := o; trace := [EvCheckTokenExpiry] |}).
Proof.
  intros He. by rewrite send_message_run, get_messages_run, He.
Qed.

Lemma credential_failure_witness :
  token_check env_auth_fails = inl auth_exc
  ∧ call o0 (send_message env_auth_fails "sms" "hello" (DStr "15550100")
               "15550199" None None None None)
    = (Raise auth_exc, {| self := o0; trace := [EvCheckTokenExpiry] |})
  ∧ call o0 (get_messages env_auth_fails None None None None)
    = (Raise auth_exc, {| self := o0; trace := [EvCheckTokenExpiry] |}).
Proof.
  split; [reflexivity|].
  apply (credential_failure env_auth_fails o0 auth_exc "sms" "hello"
           (DStr "15550100") "15550199" None None None None
           None None None None).
  reflexivity.
Defined.

(** X3.  When the token data has no [access_token], no request is sent:
    the session is opened and closed around the failing lookup.
    [send_message] raises the [KeyError]; [get_messages] raises the
    unexpected error with the [KeyError] as cause. *)
Theorem missing_access_token
    env o tok mt msg d f sid data mime size sid' dom usr limit :
  token_check env = inr tok →
  tok !! "access_token" = None →
  session_ok sid →
  call o (send_message env mt msg d f sid data mime size)
  = (Raise (mk_exc KeyErrorCls "access_token" None),
     {| self := refreshed o tok;
        trace := [EvCheckTokenExpiry; EvSessionOpen; EvSessionClose] |})
  ∧ call o (get_messages env sid' dom usr limit)
    = (Raise (mk_exc ExceptionCls "An unexpected error occurred."
                (Some (mk_exc KeyErrorCls "access_token" None))),
       {| self := refreshed o tok;
          trace := [EvCheckTokenExpiry; EvSessionOpen; EvSessionClose] |}).
Proof.
  intros Htok Ha Hsid.
  rewrite send_message_run, get_messages_run, Htok. cbn zeta. rewrite Ha.
  split; [|reflexivity].
  unfold send_url. destruct sid as [s|]; [|reflexivity].
  destruct (decide (s = "")) as [->|Hs]; [reflexivity|].
  by rewrite (truthy_str_nonempty s Hs), (Hsid s eq_refl Hs).
Qed.

Lemma missing_access_token_witness :
  (token_check env_no_access = inr tok_no_access
   ∧ tok_no_access !! "access_token" = None
   ∧ session_ok None)
  ∧ call o0 (send_message env_no_access "sms" "hello" (DStr "15550100")
               "15550199" None None None None)
    = (Raise (mk_exc KeyErrorCls "access_token" None),
       {| self := refreshed o0 tok_no_access;
          trace := [EvCheckTokenExpiry; EvSessionOpen; EvSessionClose] |}).
Proof.
  assert (Hok : session_ok None) by (intros s Hs; discriminate Hs).
  split; [by repeat split|].
  apply (missing_access_token env_no_access o0 tok_no_access "sms" "hello"
           (DStr "15550100") "15550199" None None None None
           None None None None eq_refl eq_refl Hok).
Defined.

(** ** The object across a call *)

(** X4.  Once [check_token_expiry] has answered, the object holds the
    answer as [auth_data] and its [api_url] entry (or [None]) as
    [base_url], and keeps its [domain] and [user]: after every call of
    either coroutine, whether it returns or raises. *)
Theorem object_after_call env o tok :
  token_check env = inr tok →
  (∀ mt msg d f sid data mime size,
     self (call o (send_message env mt msg d f sid data mime size)).2
     = {| auth_data := Some tok; base_url := tok !! "api_url";
          domain := domain o; user := user o |})
  ∧ (∀ sid dom usr limit,
       self (call o (get_messages env sid dom usr limit)).2
       = {| auth_data := Some tok; base_url := tok !! "api_url";
            domain := domain o; user := user o |}).
Proof.
  intros Htok. split.
  - intros mt msg d f sid data mime size.
    rewrite send_message_run, Htok. cbn zeta.
    destruct (send_url _ sid); [reflexivity|].
    by destruct (tok !! "access_token").
  - intros sid dom usr limit. rewrite get_messages_run, Htok. cbn zeta.
    by destruct (tok !! "access_token").
Qed.

Lemma object_after_call_witness :
  token_check env_forbidden = inr tok0
  ∧ self (call o0 (send_message env_forbidden "sms" "hello"
                     (DStr "15550100") "15550199" (Some "bad-id")
                     None None None)).2
    = {| auth_data := Some tok0;
         base_url := Some "https://api.example.com";
         domain := "~"; user := "~" |}.
Proof.
  split; [reflexivity|].
  apply (proj1 (object_after_call env_forbidden o0 tok0 eq_refl)
           "sms" "hello" (DStr "15550100") "15550199" (Some "bad-id")
           None None None).
Defined.

(** X5.  What [send_message] does never depends on the [auth_data] and
    the [base_url] that the object held before the call: two objects with
    the same [domain] and [user] give the same outcome and the same
    trace. *)
Theorem stale_attributes_unused env o1 o2 :
  domain o1 = domain o2 →
  user o1 = user o2 →
  (∀ mt msg d f sid data mime size,
     (call o1 (send_message env mt msg d f sid data mime size)).1
     = (call o2 (send_message env mt msg d f sid data mime size)).1
     ∧ trace (call o1 (send_message env mt msg d f sid data mime size)).2
       = trace (call o2 (send_message env mt msg d f sid data mime size)).2).
Proof.
  intros Hd Hu mt msg d f sid data mime size.
  rewrite !send_message_run.
  destruct (token_check env) as [e|tok]; [done|]. cbn zeta.
  assert (refreshed o1 tok = refreshed o2 tok) as ->
    by (unfold refreshed; by rewrite Hd, Hu).
  destruct (send_url _ sid); [done|].
  by destruct (tok !! "access_token").
Qed.

Lemma stale_attributes_unused_witness :
  (domain o0 = domain (init (Some tok_no_url))
   ∧ user o0 = user (init (Some tok_no_url)))
  ∧ (call o0 (send_message env_ok "sms" "hello" (DStr "15550100")
                "15550199" None None None None)).1
    = (call (init (Some tok_no_url))
         (send_message env_ok "sms" "hello" (DStr "15550100")
            "15550199" None None None None)).1.
Proof.
  split; [by split|].
  apply (stale_attributes_unused env_ok o0 (init (Some tok_no_url))
           eq_refl eq_refl "sms" "hello" (DStr "15550100") "15550199"
           None None None None).
Defined.

(** X6.  [get_messages] reads nothing of the object: any two objects give
    the same outcome and the same trace, also when their [domain] and
    [user] differ. *)
Theorem get_messages_ignores_object env o1 o2 sid dom usr limit :
  (call o1 (get_messages env sid dom usr limit)).1
  = (call o2 (get_messages env sid dom usr limit)).1
  ∧ trace (call o1 (get_messages env sid dom usr limit)).2
    = trace (call o2 (get_messages env sid dom usr limit)).2.
Proof.
  rewrite !get_messages_run.
  destruct (token_check env) as [e|tok]; [done|]. cbn zeta.
  by destruct (tok !! "access_token").
Qed.

(** ** Outcomes *)

Ltac no_request H :=
  repeat (apply elem_of_cons in H as [H|H]; [done|]);
  by apply elem_of_nil in H.

(** X7.  When the server answers the request of a call with status 200
    and a body that parses as JSON, the call returns that document as it
    is.  This holds of both coroutines. *)
Theorem success_returns_document env o r resp doc :
  transport env r = inr resp →
  status resp = 200 →
  json resp = inr doc →
  (∀ mt msg d f sid data mime size,
     EvRequest r
       ∈ trace (call o (send_message env mt msg d f sid data mime size)).2 →
     (call o (send_message env mt msg d f sid data mime size)).1
     = Return doc)
  ∧ (∀ sid dom usr limit,
       EvRequest r ∈ trace (call o (get_messages env sid dom usr limit)).2 →
       (call o (get_messages env sid dom usr limit)).1 = Return doc).
Proof.
  intros Hr Hst Hjson. split.
  - intros mt msg d f sid data mime size. rewrite send_message_run.
    destruct (token_check env) as [e|tok]; simpl; [intros H; no_request H|].
    destruct (send_url _ sid) as [e|url]; simpl; [intros H; no_request H|].
    destruct (tok !! "access_token") as [a|]; simpl;
      [|intros H; no_request H].
    intros H.
    apply elem_of_cons in H as [H|H]; [done|].
    apply elem_of_cons in H as [H|H]; [done|].
    apply elem_of_cons in H as [[= ->]|H]; [|no_request H].
    rewrite Hr. cbn [send_outcome]. by rewrite Hst, Hjson.
  - intros sid dom usr limit. rewrite get_messages_run.
    destruct (token_check env) as [e|tok]; simpl; [intros H; no_request H|].
    destruct (tok !! "access_token") as [a|]; simpl;
      [|intros H; no_request H].
    intros H.
    apply elem_of_cons in H as [H|H]; [done|].
    apply elem_of_cons in H as [H|H]; [done|].
    apply elem_of_cons in H as [[= ->]|H]; [|no_request H].
    rewrite Hr. cbn [get_body_outcome]. by rewrite Hst, Hjson.
Qed.

Lemma success_returns_document_witness :
  (transport env_ok
     (GET "https://api.example.com/ns-api/v2/domains/~/messagesessions"
        (bearer "secret") (get_params None))
   = inr {| status := 200; text := inr "{ok: true}"; json := inr doc0 |}
   ∧ (200 : Z) = 200)
  ∧ (call o0 (get_messages env_ok None None None None)).1 = Return doc0.
Proof.
  split; [by split|].
  apply (proj2 (success_returns_document env_ok o0
                  (GET "https://api.example.com/ns-api/v2/domains/~/messagesessions"
                     (bearer "secret") (get_params None))
                  {| status := 200; text := inr "{ok: true}";
                     json := inr doc0 |}
                  doc0 eq_refl eq_refl eq_refl)
           None None None None).
  rewrite get_messages_run. simpl.
  apply list_elem_of_further, list_elem_of_further, list_elem_of_here.
Defined.

(** X8.  Once the credential check has answered, no subclass of
    [Exception] leaves [get_messages] as it was raised.  What
    [get_messages] raises is either a new [Exception] that has the
    original as its cause, with the network message exactly when the
    original is an [aiohttp.ClientError] and the unexpected message
    otherwise, or an exception that is no [Exception] at all (a
    cancellation), which passes through untouched. *)
Theorem get_messages_raises env o sid dom usr limit tok e :
  token_check env = inr tok →
  (call o (get_messages env sid dom usr limit)).1 = Raise e →
  (∃ c,
     is_exception (exc_class c) = true
     ∧ e = mk_exc ExceptionCls
             (if is_client_error (exc_class c)
              then "Network error occurred while retrieving messages."
              else "An unexpected error occurred.")
             (Some c))
  ∨ (is_exception (exc_class e) = false
     ∧ ∃ r, transport env r = inl e
            ∨ ∃ resp, transport env r = inr resp
                      ∧ (json resp = inl e ∨ text resp = inl e)).
Proof.
  intros Htok. rewrite get_messages_run, Htok. cbn zeta.
  destruct (tok !! "access_token") as [a|]; cbn [fst].
  2:{ intros [= <-]. left.
      exists (mk_exc KeyErrorCls "access_token" None). by split. }
  set (r := GET _ _ _).
  unfold get_body_outcome.
  assert (Hwrap : ∀ c,
    handled (Raise c) = Raise e →
    (∃ c0, is_exception (exc_class c0) = true
           ∧ e = mk_exc ExceptionCls
                   (if is_client_error (exc_class c0)
                    then "Network error occurred while retrieving messages."
                    else "An unexpected error occurred.")
                   (Some c0))
    ∨ (is_exception (exc_class e) = false ∧ c = e)).
  { intros c. unfold handled.
    destruct (is_client_error (exc_class c)) eqn:Hc.
    - intros [= <-]. left. exists c. rewrite Hc. split; [|done].
      by destruct (exc_class c).
    - destruct (is_exception (exc_class c)) eqn:Hx.
      + intros [= <-]. left. exists c. by rewrite Hc.
      + intros [= <-]. by right. }
  destruct (transport env r) as [c|resp] eqn:Hr.
  { intros [H|[Hx ->]]%Hwrap; [by left|].
    right. split; [done|]. exists r. by left. }
  destruct (status resp =? 200).
  - destruct (json resp) as [c|j] eqn:Hj; [|done].
    intros [H|[Hx ->]]%Hwrap; [by left|].
    right. split; [done|]. exists r. right. exists resp. auto.
  - destruct (text resp) as [c|t] eqn:Ht.
    + intros [H|[Hx ->]]%Hwrap; [by left|].
      right. split; [done|]. exists r. right. exists resp. auto.
    + intros [H|[Hx <-]]%Hwrap; [by left | discriminate Hx].
Qed.

Lemma get_messages_raises_witness :
  (token_check env_reset = inr tok0
   ∧ (call o0 (get_messages env_reset None None None None)).1
     = Raise (mk_exc ExceptionCls
                "Network error occurred while retrieving messages."
                (Some reset_exc)))
  ∧ ∃ c,
      is_exception (exc_class c) = true
      ∧ mk_exc ExceptionCls
          "Network error occurred while retrieving messages."
          (Some reset_exc)
        = mk_exc ExceptionCls
            (if is_client_error (exc_class c)
             then "Network error occurred while retrieving messages."
             else "An unexpected error occurred.")
            (Some c).
Proof.
  assert (Hrun :
    (call o0 (get_messages env_reset None None None None)).1
    = Raise (mk_exc ExceptionCls
               "Network error occurred while retrieving messages."
               (Some reset_exc))).
  { by rewrite get_messages_run. }
  split; [by split|].
  destruct (get_messages_raises env_reset o0 None None None None tok0 _
              eq_refl Hrun) as [H|[Hx _]];
    [exact H | discriminate Hx].
Defined.

(** X9.  A cancellation during the request is not swallowed by the
    catch-all of [get_messages]: an exception that is no [Exception]
    reaches the caller as the transport raised it, and the session is
    closed. *)
Theorem get_messages_cancellation env o sid dom usr limit tok a e :
  token_check env = inr tok →
  tok !! "access_token" = Some a →
  transport env (GET (get_url (refreshed o tok) sid (default "~" dom) usr)
                   (bearer a) (get_params limit))
  = inl e →
  is_exception (exc_class e) = false →
  (call o (get_messages env sid dom usr limit)).1 = Raise e
  ∧ last (trace (call o (get_messages env sid dom usr limit)).2)
    = Some EvSessionClose.
Proof.
  intros Htok Ha Hr Hx. rewrite get_messages_run, Htok. cbn zeta.
  rewrite Ha. cbn zeta. rewrite Hr. cbn [fst snd get_body_outcome handled].
  rewrite Hx. split; [|reflexivity].
  by destruct (exc_class e).
Qed.

Lemma get_messages_cancellation_witness :
  (token_check env_cancelled = inr tok0
   ∧ tok0 !! "access_token" = Some "secret"
   ∧ is_exception (exc_class cancelled_exc) = false)
  ∧ (call o0 (get_messages env_cancelled None None None None)).1
    = Raise cancelled_exc.
Proof.
  split; [by repeat split|].
  apply (get_messages_cancellation env_cancelled o0 None None None None
           tok0 "secret" cancelled_exc eq_refl eq_refl eq_refl eq_refl).
Defined.

(** X10.  [send_message] wraps nothing.  Once the request is built, what
    it raises is either its own status failure, made of the body text of
    an answer whose status is not 200, or exactly the exception that the
    transport, [response.json()] or [response.text()] raised. *)
Theorem send_message_raises env o mt msg d f sid data mime size r e :
  EvRequest r
    ∈ trace (call o (send_message env mt msg d f sid data mime size)).2 →
  (call o (send_message env mt msg d f sid data mime size)).1 = Raise e →
  transport env r = inl e
  ∨ ∃ resp,
      transport env r = inr resp
      ∧ ((status resp = 200 ∧ json resp = inl e)
         ∨ (status resp ≠ 200 ∧ text resp = inl e)
         ∨ (status resp ≠ 200
            ∧ ∃ t, text resp = inr t
                   ∧ e = mk_exc ExceptionCls
                           ("Failed to send message: " +:+ t) None)).
Proof.
  rewrite send_message_run.
  destruct (token_check env) as [e0|tok]; simpl; [intros H; no_request H|].
  destruct (send_url _ sid) as [e0|url]; simpl; [intros H; no_request H|].
  destruct (tok !! "access_token") as [a|]; simpl; [|intros H; no_request H].
  intros H.
  apply elem_of_cons in H as [H|H]; [done|].
  apply elem_of_cons in H as [H|H]; [done|].
  apply elem_of_cons in H as [[= ->]|H]; [|no_request H].
  unfold send_outcome.
  destruct (transport env _) as [c|resp]; [intros [= ->]; by left|].
  intros Hrun. right. exists resp. split; [done|]. revert Hrun.
  destruct (Z.eqb_spec (status resp) 200) as [Hst|Hst].
  - destruct (json resp); [|done]. intros [= ->]. by left.
  - destruct (text resp) as [c|t]; intros [= <-].
    + right. by left.
    + right. right. split; [done|]. by exists t.
Qed.

Lemma send_message_raises_witness :
  (EvRequest
     (POST "https://api.example.com/ns-api/v2/domains/~/users/~/messages"
        (send_payload "sms" "hello" (DStr "15550100") "15550199"
           None None None)
        (bearer "secret"))
     ∈ trace (call o0 (send_message env_reset "sms" "hello"
                         (DStr "15550100") "15550199"
                         None None None None)).2
   ∧ (call o0 (send_message env_reset "sms" "hello" (DStr "15550100")
                 "15550199" None None None None)).1
     = Raise reset_exc)
  ∧ transport env_reset
      (POST "https://api.example.com/ns-api/v2/domains/~/users/~/messages"
         (send_payload "sms" "hello" (DStr "15550100") "15550199"
            None None None)
         (bearer "secret"))
    = inl reset_exc.
Proof.
  assert (Hin :
    EvRequest
      (POST "https://api.example.com/ns-api/v2/domains/~/users/~/messages"
         (send_payload "sms" "hello" (DStr "15550100") "15550199"
            None None None)
         (bearer "secret"))
      ∈ trace (call o0 (send_message env_reset "sms" "hello"
                          (DStr "15550100") "15550199"
                          None None None None)).2).
  { rewrite send_message_run. simpl.
    apply list_elem_of_further, list_elem_of_further, list_elem_of_here. }
  assert (Hrun :
    (call o0 (send_message env_reset "sms" "hello" (DStr "15550100")
                "15550199" None None None None)).1
    = Raise reset_exc).
  { by rewrite send_message_run. }
  split; [by split|].
  destruct (send_message_raises _ _ _ _ _ _ _ _ _ _ _ _ Hin Hrun)
    as [H|(resp & Hresp & _)]; [exact H | discriminate Hresp].
Defined.

(** ** What is accepted and what is sent *)

(** X11.  Once the credential check has answered, [send_message] stops at
    the session check, with [ValueError] and no session opened, exactly
    for the identifiers that are not empty and are not 32 or more
    characters of [[a-zA-Z0-9_]] followed by nothing or by one newline.
    An identifier of 32 class characters and a final newline passes. *)
Theorem send_message_rejects_exactly
    env o mt msg d f sid data mime size tok :
  token_check env = inr tok →
  call o (send_message env mt msg d f (Some sid) data mime size)
  = (Raise (mk_exc ValueErrorCls invalid_session_msg None),
     {| self := refreshed o tok; trace := [EvCheckTokenExpiry] |})
  ↔ sid ≠ "" ∧ ¬ session_form sid.
Proof.
  intros Htok. rewrite send_message_run, Htok. cbn zeta.
  unfold send_url, session_form. rewrite <- match_session_iff.
  destruct (decide (sid = "")) as [->|Hne].
  { simpl. destruct (tok !! "access_token"); split;
      (intros [= ] || intros [? _]; done). }
  rewrite (truthy_str_nonempty sid Hne).
  destruct (Re.match_session sid) eqn:Hre; simpl.
  - destruct (tok !! "access_token"); split;
      (intros [= ] || intros [_ ?]; done).
  - split; [|done]. intros _. split; [done|]. by intros [=].
Qed.

Lemma send_message_rejects_exactly_witness :
  token_check env_ok = inr tok0
  ∧ (call o0 (send_message env_ok "sms" "hello" (DStr "15550100")
                "15550199" (Some (sid32 +:+ Re.newline)) None None None)
     = (Raise (mk_exc ValueErrorCls invalid_session_msg None),
        {| self := refreshed o0 tok0; trace := [EvCheckTokenExpiry] |})
     ↔ sid32 +:+ Re.newline ≠ "" ∧ ¬ session_form (sid32 +:+ Re.newline)).
Proof.
  split; [reflexivity|].
  apply (send_message_rejects_exactly env_ok o0 "sms" "hello"
           (DStr "15550100") "15550199" (sid32 +:+ Re.newline)
           None None None tok0 eq_refl).
Defined.

Lemma send_payload_fields mt msg d f data mime size k :
  is_Some (send_payload mt msg d f data mime size !! k) → k ∈ payload_fields.
Proof.
  unfold send_payload, payload_fields.
  destruct (truthy_str data), (truthy_str mime), (truthy_int size);
    intros [v Hv];
    repeat (apply lookup_insert_Some in Hv as [[<- _]|[_ Hv]];
            [set_solver|]);
    by rewrite lookup_empty in Hv.
Qed.

(** X12.  The body of every POST of [send_message] has the fields [type],
    [message] and [from-number] with the arguments as they were passed,
    empty strings included: the required arguments are not checked.  It
    has no field besides these three, [destination], [data], [mime-type]
    and [size]. *)
Theorem send_message_body env o mt msg d f sid data mime size url body hdrs :
  EvRequest (POST url body hdrs)
    ∈ trace (call o (send_message env mt msg d f sid data mime size)).2 →
  body !! "type" = Some (JStr mt)
  ∧ body !! "message" = Some (JStr msg)
  ∧ body !! "from-number" = Some (JStr f)
  ∧ ∀ k, is_Some (body !! k) → k ∈ payload_fields.
Proof.
  intros (tok & url' & a & _ & _ & _ & [= -> -> ->])%send_message_requests.
  repeat split; [..|apply send_payload_fields];
    unfold send_payload;
    destruct (truthy_str data), (truthy_str mime), (truthy_int size);
    by simplify_map_eq.
Qed.

Lemma send_message_body_witness :
  EvRequest
    (POST "https://api.example.com/ns-api/v2/domains/~/users/~/messages"
       (send_payload "" "" (DList []) "" None None None)
       (bearer "secret"))
    ∈ trace (call o0 (send_message env_ok "" "" (DList []) ""
                        None None None None)).2
  ∧ send_payload "" "" (DList []) "" None None None !! "type"
    = Some (JStr "").
Proof.
  assert (Hin :
    EvRequest
      (POST "https://api.example.com/ns-api/v2/domains/~/users/~/messages"
         (send_payload "" "" (DList []) "" None None None)
         (bearer "secret"))
      ∈ trace (call o0 (send_message env_ok "" "" (DList []) ""
                          None None None None)).2).
  { rewrite send_message_run. simpl.
    apply list_elem_of_further, list_elem_of_further, list_elem_of_here. }
  split; [exact Hin|].
  exact (proj1 (send_message_body _ _ _ _ _ _ _ _ _ _ _ _ _ Hin)).
Defined.

(** X13.  Every request carries one header, [Authorization], made of the
    access token that [check_token_expiry] has just answered; the token
    data that the object held before the call is not used. *)
Theorem bearer_of_fresh_token env o r :
  (∃ mt msg d f sid data mime size,
     EvRequest r
       ∈ trace (call o (send_message env mt msg d f sid data mime size)).2)
  ∨ (∃ sid dom usr limit,
       EvRequest r ∈ trace (call o (get_messages env sid dom usr limit)).2) →
  ∃ tok a,
    token_check env = inr tok
    ∧ tok !! "access_token" = Some a
    ∧ match r with POST _ _ hdrs | GET _ hdrs _ => hdrs end
      = {["Authorization" := "Bearer " +:+ a]}.
Proof.
  intros [(mt & msg & d & f & sid & data & mime & size & H)
         |(sid & dom & usr & limit & H)].
  - apply send_message_requests in H as (tok & url & a & ? & _ & ? & ->).
    by exists tok, a.
  - apply get_messages_requests in H as (tok & a & ? & ? & ->).
    by exists tok, a.
Qed.

Lemma bearer_of_fresh_token_witness :
  ∃ tok a,
    token_check env_ok = inr tok
    ∧ tok !! "access_token" = Some a
    ∧ bearer "secret" = {["Authorization" := "Bearer " +:+ a]}.
Proof.
  apply (bearer_of_fresh_token env_ok
           (init (Some {["access_token" := "stale"]}))
           (GET "https://api.example.com/ns-api/v2/domains/~/messagesessions"
              (bearer "secret") (get_params None))).
  right. exists None, None, None, None.
  rewrite get_messages_run. simpl.
  apply list_elem_of_further, list_elem_of_further, list_elem_of_here.
Defined.

(** X14.  When the token data has no [api_url], the missing entry raises
    nothing: every call that gets past the session check sends its request
    all the same, whatever its arguments, to a URL that starts with the
    text [None/ns-api/v2/domains/], and when the server answers 200 with a
    JSON document the call returns it. *)
Theorem missing_api_url env o tok a :
  token_check env = inr tok →
  tok !! "api_url" = None →
  tok !! "access_token" = Some a →
  (∀ mt msg d f sid data mime size,
     session_ok sid →
     ∃ rest,
       let r := POST ("None/ns-api/v2/domains/" +:+ rest)
                  (send_payload mt msg d f data mime size) (bearer a) in
       trace (call o (send_message env mt msg d f sid data mime size)).2
       = [EvCheckTokenExpiry; EvSessionOpen; EvRequest r; EvSessionClose]
       ∧ ∀ resp doc,
           transport env r = inr resp → status resp = 200 →
           json resp = inr doc →
           (call o (send_message env mt msg d f sid data mime size)).1
           = Return doc)
  ∧ (∀ sid dom usr limit,
       ∃ rest,
         let r := GET ("None/ns-api/v2/domains/" +:+ rest) (bearer a)
                    (get_params limit) in
         trace (call o (get_messages env sid dom usr limit)).2
         = [EvCheckTokenExpiry; EvSessionOpen; EvRequest r; EvSessionClose]
         ∧ ∀ resp doc,
             transport env r = inr resp → status resp = 200 →
             json resp = inr doc →
             (call o (get_messages env sid dom usr limit)).1 = Return doc).
Proof.
  intros Htok Hurl Ha. split.
  - intros mt msg d f sid data mime size Hsid.
    rewrite send_message_run, Htok. cbn zeta.
    assert (∃ rest,
      send_url (refreshed o tok) sid
      = inr ("None/ns-api/v2/domains/" +:+ rest)) as [rest Hsend].
    { unfold send_url, refreshed. cbn [base_url domain user]. rewrite Hurl.
      destruct sid as [s|]; [|by eexists].
      destruct (decide (s = "")) as [->|Hs]; [by eexists|].
      rewrite (truthy_str_nonempty s Hs), (Hsid s eq_refl Hs).
      by eexists. }
    exists rest. rewrite Hsend, Ha. cbn zeta. split; [reflexivity|].
    intros resp doc Hr Hst Hjson. cbn [fst]. rewrite Hr.
    cbn [send_outcome]. by rewrite Hst, Hjson.
  - intros sid dom usr limit. rewrite get_messages_run, Htok. cbn zeta.
    rewrite Ha. cbn zeta.
    assert (∃ rest,
      get_url (refreshed o tok) sid (default "~" dom) usr
      = "None/ns-api/v2/domains/" +:+ rest) as [rest Hget].
    { unfold get_url, refreshed. cbn [base_url]. rewrite Hurl.
      destruct (truthy_str sid); [by eexists|].
      destruct (truthy_str usr); by eexists. }
    exists rest. rewrite Hget. cbn zeta. split; [reflexivity|].
    intros resp doc Hr Hst Hjson. cbn [fst]. rewrite Hr.
    cbn [get_body_outcome]. by rewrite Hst, Hjson.
Qed.

Lemma missing_api_url_witness :
  (token_check env_no_url = inr tok_no_url
   ∧ tok_no_url !! "api_url" = None
   ∧ tok_no_url !! "access_token" = Some "secret")
  ∧ ∃ rest,
      trace (call o0 (get_messages env_no_url (Some "bad-id") (Some "acme")
                        (Some "bob") (Some 5))).2
      = [EvCheckTokenExpiry; EvSessionOpen;
         EvRequest (GET ("None/ns-api/v2/domains/" +:+ rest)
                      (bearer "secret") (get_params (Some 5)));
         EvSessionClose]
      ∧ (call o0 (get_messages env_no_url (Some "bad-id") (Some "acme")
                    (Some "bob") (Some 5))).1
        = Return doc0.
Proof.
  split; [by repeat split|].
  destruct (proj2 (missing_api_url env_no_url o0 tok_no_url "secret"
                     eq_refl eq_refl eq_refl)
              (Some "bad-id") (Some "acme") (Some "bob") (Some 5))
    as (rest & Htrace & Hret).
  exists rest. split; [exact Htrace|].
  exact (Hret {| status := 200; text := inr "{ok: true}";
                 json := inr doc0 |} doc0 eq_refl eq_refl eq_refl).
Defined.

(** X15.  A client fresh from the constructor sends to the domain [~] and
    the user [~], whatever token data the authentication client had
    cached when it was built, none at all included; the authority of the
    URL is the [api_url] of the credential check, not the one cached at
    construction. *)
Theorem fresh_client_send env token_data tok a mt msg d f data mime size :
  token_check env = inr tok →
  tok !! "access_token" = Some a →
  trace (call (init token_data)
           (send_message env mt msg d f None data mime size)).2
  = [EvCheckTokenExpiry; EvSessionOpen;
     EvRequest
       (POST (fmt (tok !! "api_url") +:+ "/ns-api/v2/domains/~/users/~/messages")
          (send_payload mt msg d f data mime size) (bearer a));
     EvSessionClose].
Proof.
  intros Htok Ha. rewrite send_message_run, Htok. cbn zeta.
  unfold send_url, refreshed, init.
  cbn [truthy_str base_url domain user]. by rewrite Ha.
Qed.

Lemma fresh_client_send_witness :
  (token_check env_ok = inr tok0 ∧ tok0 !! "access_token" = Some "secret")
  ∧ trace (call (init (Some tok_no_url))
             (send_message env_ok "sms" "hello" (DStr "15550100")
                "15550199" None None None None)).2
    = [EvCheckTokenExpiry; EvSessionOpen;
       EvRequest
         (POST "https://api.example.com/ns-api/v2/domains/~/users/~/messages"
            (send_payload "sms" "hello" (DStr "15550100") "15550199"
               None None None)
            (bearer "secret"));
       EvSessionClose].
Proof.
  split; [by split|].
  apply (fresh_client_send env_ok (Some tok_no_url) tok0 "secret" "sms"
           "hello" (DStr "15550100") "15550199" None None None
           eq_refl eq_refl).
Defined.

(** ** Logger calls *)

Ltac run_logged :=
  unfold Logging.call, mbind, Logging.LM_bind, mret, Logging.LM_ret,
    Logging.check_token_expiry, Logging.session_request,
    Logging.with_client_session, Logging.then_close, Logging.try_except,
    Logging.auth_data_item, Logging.set_auth_data, Logging.set_base_url,
    Logging.get_self, Logging.set_self, Logging.log, Logging.emit,
    Logging.response_json, Logging.response_text, Logging.lift,
    Logging.raise;
  cbn [Logging.lself Logging.ltrace auth_data base_url domain user
       fst snd app].

(** [Logging.send_message], path by path. *)
Lemma logged_send_message_run P env o mt msg d f sid data mime size :
  Logging.call o (Logging.send_message P env mt msg d f sid data mime size)
  = match token_check env with
    | inl e =>
        (Raise e,
         {| Logging.lself := o;
            Logging.ltrace := [Logging.Did EvCheckTokenExpiry] |})
    | inr tok =>
        let o' := refreshed o tok in
        match send_url o' sid with
        | inl e =>
            (Raise e,
             {| Logging.lself := o';
                Logging.ltrace :=
                  [Logging.Did EvCheckTokenExpiry;
                   Logging.Log Logging.ERROR
                     "Invalid messagesession ID format."] |})
        | inr url =>
            let body := send_payload mt msg d f data mime size in
            let dbg :=
              Logging.Log Logging.DEBUG
                ("Sending message with payload: "
                 +:+ Logging.repr_payload P body) in
            match tok !! "access_token" with
            | None =>
                (Raise (mk_exc KeyErrorCls "access_token" None),
                 {| Logging.lself := o';
                    Logging.ltrace :=
                      [Logging.Did EvCheckTokenExpiry; dbg;
                       Logging.Did EvSessionOpen;
                       Logging.Did EvSessionClose] |})
            | Some a =>
                let r := POST url body (bearer a) in
                (send_outcome (transport env r),
                 {| Logging.lself := o';
                    Logging.ltrace :=
                      [Logging.Did EvCheckTokenExpiry; dbg;
                       Logging.Did EvSessionOpen;
                       Logging.Did (EvRequest r)]
                      ++ Logging.send_logs P (transport env r)
                      ++ [Logging.Did EvSessionClose] |})
            end
        end
    end.
Proof.
  unfold Logging.send_message. run_logged.
  destruct (token_check env) as [e|tok]; [reflexivity|].
  run_logged. fold (refreshed o tok). unfold send_url.
  cbn [refreshed base_url domain user].
  destruct (truthy_str sid) as [s|].
  - destruct (Re.match_session s); cbn [negb]; [|reflexivity].
    run_logged. fold (refreshed o tok).
    unfold refreshed at 1. cbn [auth_data option_bind].
    destruct (tok !! "access_token") as [a|]; [|reflexivity].
    run_logged. unfold send_outcome, Logging.send_logs.
    destruct (transport env _) as [e|resp]; [reflexivity|].
    destruct (status resp =? 200).
    + destruct (json resp); reflexivity.
    + destruct (text resp); reflexivity.
  - run_logged. fold (refreshed o tok).
    unfold refreshed at 1. cbn [auth_data option_bind].
    destruct (tok !! "access_token") as [a|]; [|reflexivity].
    run_logged. unfold send_outcome, Logging.send_logs.
    destruct (transport env _) as [e|resp]; [reflexivity|].
    destruct (status resp =? 200).
    + destruct (json resp); reflexivity.
    + destruct (text resp); reflexivity.
Qed.

(** [Logging.get_messages], path by path. *)
Lemma logged_get_messages_run P env o sid dom usr limit :
  Logging.call o (Logging.get_messages P env sid dom usr limit)
  = match token_check env with
    | inl e =>
        (Raise e,
         {| Logging.lself := o;
            Logging.ltrace := [Logging.Did EvCheckTokenExpiry] |})
    | inr tok =>
        let o' := refreshed o tok in
        let url := get_url o' sid (default "~" dom) usr in
        let dbg :=
          Logging.Log Logging.DEBUG
            ("Retrieving messages from " +:+ url +:+ " with params: "
             +:+ Logging.repr_params P (get_params limit)) in
        match tok !! "access_token" with
        | None =>
            (Raise (mk_exc ExceptionCls "An unexpected error occurred."
                      (Some (mk_exc KeyErrorCls "access_token" None))),
             {| Logging.lself := o';
                Logging.ltrace :=
                  [Logging.Did EvCheckTokenExpiry; dbg;
                   Logging.Did EvSessionOpen; Logging.Did EvSessionClose;
                   Logging.Log Logging.ERROR
                     ("Unexpected error while retrieving messages: "
                      +:+ Logging.str_exc P
                            (mk_exc KeyErrorCls "access_token" None))] |})
        | Some a =>
            let r := GET url (bearer a) (get_params limit) in
            (handled (get_body_outcome (transport env r)),
             {| Logging.lself := o';
                Logging.ltrace :=
                  [Logging.Did EvCheckTokenExpiry; dbg;
                   Logging.Did EvSessionOpen; Logging.Did (EvRequest r)]
                  ++ Logging.get_body_logs url (transport env r)
                  ++ [Logging.Did EvSessionClose]
                  ++ Logging.handler_logs P
                       (get_body_outcome (transport env r)) |})
        end
    end.
Proof.
  unfold Logging.get_messages, default_domain. run_logged.
  destruct (token_check env) as [e|tok]; [reflexivity|].
  run_logged. fold (refreshed o tok).
  unfold refreshed at 1. cbn [auth_data option_bind].
  destruct (tok !! "access_token") as [a|]; [|reflexivity].
  run_logged.
  unfold get_body_outcome, handled, Logging.get_handlers,
    Logging.get_body_logs, Logging.handler_logs.
  destruct (transport env _) as [e|resp].
  - destruct (is_client_error (exc_class e)); [reflexivity|].
    destruct (is_exception (exc_class e)); reflexivity.
  - destruct (status resp =? 200).
    + destruct (json resp) as [e|j]; [|reflexivity].
      destruct (is_client_error (exc_class e)); [reflexivity|].
      destruct (is_exception (exc_class e)); reflexivity.
    + destruct (text resp) as [e|t]; [|reflexivity].
      destruct (is_client_error (exc_class e)); [reflexivity|].
      destruct (is_exception (exc_class e)); reflexivity.
Qed.

Lemma erase_app tr1 tr2 :
  Logging.erase (tr1 ++ tr2) = (Logging.erase tr1 ++ Logging.erase tr2)%list.
Proof.
  induction tr1 as [|[ev|lvl m] tr1 IH]; simpl; [done| |done].
  by rewrite IH.
Qed.

Lemma levels_app tr1 tr2 :
  Logging.levels (tr1 ++ tr2)
  = (Logging.levels tr1 ++ Logging.levels tr2)%list.
Proof.
  induction tr1 as [|[ev|lvl m] tr1 IH]; simpl; [done|done|].
  by rewrite IH.
Qed.

(** The two transcriptions agree: with the logger calls written out,
    each coroutine has the same outcome, leaves the same object, and makes
    the same calls to the collaborators in the same order. *)
Lemma logging_changes_nothing P env o :
  (∀ mt msg d f sid data mime size,
     let out :=
       Logging.call o
         (Logging.send_message P env mt msg d f sid data mime size) in
     let ref := call o (send_message env mt msg d f sid data mime size) in
     out.1 = ref.1
     ∧ Logging.lself out.2 = self ref.2
     ∧ Logging.erase (Logging.ltrace out.2) = trace ref.2)
  ∧ (∀ sid dom usr limit,
       let out :=
         Logging.call o (Logging.get_messages P env sid dom usr limit) in
       let ref := call o (get_messages env sid dom usr limit) in
       out.1 = ref.1
       ∧ Logging.lself out.2 = self ref.2
       ∧ Logging.erase (Logging.ltrace out.2) = trace ref.2).
Proof.
  split.
  - intros mt msg d f sid data mime size.
    rewrite logged_send_message_run, send_message_run.
    destruct (token_check env) as [e|tok]; [done|]. cbn zeta.
    destruct (send_url _ sid) as [e|url]; [done|].
    destruct (tok !! "access_token") as [a|]; [|done].
    cbn [fst snd Logging.lself Logging.ltrace self trace].
    repeat split. unfold Logging.send_logs.
    destruct (transport env _) as [e|resp]; [done|].
    destruct (status resp =? 200); [by destruct (json resp)|].
    by destruct (text resp).
  - intros sid dom usr limit.
    rewrite logged_get_messages_run, get_messages_run.
    destruct (token_check env) as [e|tok]; [done|]. cbn zeta.
    destruct (tok !! "access_token") as [a|]; [|done].
    cbn [fst snd Logging.lself Logging.ltrace self trace].
    repeat split.
    rewrite !erase_app. cbn [Logging.erase app].
    unfold Logging.get_body_logs, Logging.handler_logs, get_body_outcome.
    destruct (transport env _) as [e|resp].
    + destruct (is_client_error (exc_class e)); [done|].
      by destruct (is_exception (exc_class e)).
    + destruct (status resp =? 200).
      * destruct (json resp) as [e|j]; [|done].
        destruct (is_client_error (exc_class e)); [done|].
        by destruct (is_exception (exc_class e)).
      * destruct (text resp) as [e|t]; [|done].
        destruct (is_client_error (exc_class e)); [done|].
        by destruct (is_exception (exc_class e)).
Qed.

(** X17.  The logger calls of [get_messages], by outcome, once the
    credential check has answered.  One DEBUG call comes first in every
    case.  A call that returns makes one INFO call.  A call that raises an
    [Exception] has made one ERROR call, or two: the failure of a status
    other than 200 is logged once where it is raised and once more by the
    catch-all.  A cancellation passes with no ERROR call. *)
Theorem get_messages_log_levels P env o sid dom usr limit tok :
  token_check env = inr tok →
  let out := Logging.call o (Logging.get_messages P env sid dom usr limit) in
  let lv := Logging.levels (Logging.ltrace out.2) in
  match out.1 with
  | Return _ => lv = [Logging.DEBUG; Logging.INFO]
  | Raise e =>
      if is_exception (exc_class e)
      then lv = [Logging.DEBUG; Logging.ERROR]
           ∨ (lv = [Logging.DEBUG; Logging.ERROR; Logging.ERROR]
              ∧ ∃ r resp t,
                  transport env r = inr resp ∧ status resp ≠ 200
                  ∧ text resp = inr t)
      else lv = [Logging.DEBUG]
  end.
Proof.
  intros Htok. rewrite logged_get_messages_run, Htok. cbn zeta.
  destruct (tok !! "access_token") as [a|]; [|by left].
  cbn [fst snd Logging.ltrace].
  rewrite !levels_app. cbn [Logging.levels app].
  set (r := GET _ _ _).
  unfold Logging.get_body_logs, Logging.handler_logs, get_body_outcome,
    handled.
  destruct (transport env r) as [e|resp] eqn:Hr.
  { destruct (is_client_error (exc_class e)) eqn:Hc; [by left|].
    destruct (is_exception (exc_class e)) eqn:Hx; [by left|].
    by rewrite Hx. }
  destruct (Z.eqb_spec (status resp) 200) as [Hst|Hst].
  - destruct (json resp) as [e|j]; [|done].
    destruct (is_client_error (exc_class e)) eqn:Hc; [by left|].
    destruct (is_exception (exc_class e)) eqn:Hx; [by left|].
    by rewrite Hx.
  - destruct (text resp) as [e|t] eqn:Ht.
    + destruct (is_client_error (exc_class e)) eqn:Hc; [by left|].
      destruct (is_exception (exc_class e)) eqn:Hx; [by left|].
      by rewrite Hx.
    + right. split; [done|]. by exists r, resp, t.
Qed.

Lemma get_messages_log_levels_witness :
  token_check env_forbidden = inr tok0
  ∧ Logging.levels
      (Logging.ltrace
         (Logging.call o0
            (Logging.get_messages Logging.printer0 env_forbidden
               None None None None)).2)
    = [Logging.DEBUG; Logging.ERROR; Logging.ERROR].
Proof.
  split; [reflexivity|].
  destruct (get_messages_log_levels Logging.printer0 env_forbidden o0
              None None None None tok0 eq_refl) as [H|[H _]].
  - rewrite logged_get_messages_run in H. discriminate H.
  - exact H.
Defined.

(** X18.  The logger calls of [send_message], by outcome, once the
    credential check has answered.  A call that returns has made one DEBUG
    and one INFO call.  A rejected session identifier is logged at ERROR,
    before any DEBUG call.  A status other than 200 is logged at ERROR.
    Any other failure is not logged at all: a missing access token, and
    whatever the transport, [response.json()] or [response.text()]
    raises, pass with the one DEBUG call only. *)
Theorem send_message_log_levels P env o mt msg d f sid data mime size tok :
  token_check env = inr tok →
  let out :=
    Logging.call o
      (Logging.send_message P env mt msg d f sid data mime size) in
  let lv := Logging.levels (Logging.ltrace out.2) in
  match out.1 with
  | Return _ => lv = [Logging.DEBUG; Logging.INFO]
  | Raise e =>
      (lv = [Logging.ERROR]
       ∧ e = mk_exc ValueErrorCls invalid_session_msg None)
      ∨ (lv = [Logging.DEBUG; Logging.ERROR]
         ∧ ∃ r resp t,
             transport env r = inr resp ∧ status resp ≠ 200
             ∧ text resp = inr t
             ∧ e = mk_exc ExceptionCls ("Failed to send message: " +:+ t)
                     None)
      ∨ (lv = [Logging.DEBUG]
         ∧ (tok !! "access_token" = None
            ∨ ∃ r, transport env r = inl e
                   ∨ ∃ resp, transport env r = inr resp
                             ∧ (json resp = inl e ∨ text resp = inl e)))
  end.
Proof.
  intros Htok. rewrite logged_send_message_run, Htok. cbn zeta.
  destruct (send_url _ sid) as [e|url] eqn:Hurl.
  { left. split; [done|]. unfold send_url in Hurl.
    destruct (truthy_str sid); [|done].
    by destruct (negb _); inversion Hurl. }
  destruct (tok !! "access_token") as [a|]; [|right; right; auto].
  cbn [fst snd Logging.ltrace].
  rewrite !levels_app. cbn [Logging.levels app].
  set (r := POST _ _ _).
  unfold Logging.send_logs, send_outcome.
  destruct (transport env r) as [e|resp] eqn:Hr.
  { right. right. split; [done|]. right. exists r. by left. }
  destruct (Z.eqb_spec (status resp) 200) as [Hst|Hst].
  - destruct (json resp) as [e|j] eqn:Hj; [|done].
    right. right. split; [done|]. right. exists r. right. exists resp. auto.
  - destruct (text resp) as [e|t] eqn:Ht.
    + right. right. split; [done|]. right. exists r. right.
      exists resp. auto.
    + right. left. split; [done|]. by exists r, resp, t.
Qed.

Lemma send_message_log_levels_witness :
  token_check env_reset = inr tok0
  ∧ Logging.levels
      (Logging.ltrace
         (Logging.call o0
            (Logging.send_message Logging.printer0 env_reset "sms" "hello"
               (DStr "15550100") "15550199" None None None None)).2)
    = [Logging.DEBUG].
Proof.
  split; [reflexivity|].
  destruct (send_message_log_levels Logging.printer0 env_reset o0 "sms"
              "hello" (DStr "15550100") "15550199" None None None None
              tok0 eq_refl) as [[_ H]|[[H _]|[H _]]].
  - discriminate H.
  - rewrite logged_send_message_run in H. discriminate H.
  - exact H.
Defined.

(** X19.  When [check_token_expiry] raises, neither coroutine makes any
    logger call: the failure of the credential check leaves no trace in
    the log of this module. *)
Theorem credential_failure_not_logged
    P env o e mt msg d f sid data mime size sid' dom usr limit :
  token_check env = inl e →
  Logging.ltrace
    (Logging.call o
       (Logging.send_message P env mt msg d f sid data mime size)).2
  = [Logging.Did EvCheckTokenExpiry]
  ∧ Logging.ltrace
      (Logging.call o (Logging.get_messages P env sid' dom usr limit)).2
    = [Logging.Did EvCheckTokenExpiry].
Proof.
  intros He.
  by rewrite logged_send_message_run, logged_get_messages_run, He.
Qed.

Lemma credential_failure_not_logged_witness :
  token_check env_auth_fails = inl auth_exc
  ∧ Logging.ltrace
      (Logging.call o0
         (Logging.get_messages Logging.printer0 env_auth_fails
            None None None None)).2
    = [Logging.Did EvCheckTokenExpiry].
Proof.
  split; [reflexivity|].
  apply (credential_failure_not_logged Logging.printer0 env_auth_fails o0
           auth_exc "sms" "hello" (DStr "15550100") "15550199"
           None None None None None None None None eq_refl).
Defined.

(** ** The logger of the constructor *)




